(** * Safe-Policy-Optimization: benchmark driver and multi-agent config builder

    A shallow embedding of [safepo/single_agent/benchmark.py] and of
    [safepo/utils/config.py] (function [multi_agent_args]), with the
    properties of the specification stated and proved over it.

    Layout: the Python run-time fragment both scripts rely on ([Py]), the
    benchmark driver ([Benchmark]), the config builder ([Config]) and the
    simulator parameters ([Sim]), then the lemmas and theorems about
    each. *)

From Stdlib Require Import String Ascii List ZArith Lia Bool.
From Stdlib Require Import DecimalString DecimalZ DecimalPos.
Import ListNotations.
Open Scope string_scope.
Set Warnings "-register-all".

(* ================================================================== *)
(** ** Python run-time fragment *)
(* ================================================================== *)

Module Py.

(** Exceptions the two scripts can raise or let through. *)
Inductive exn : Type :=
| Exception (msg : string)
| AssertionError
| AttributeError
| KeyError
| TypeError
| ValueError
| OSError
| YAMLError.

(** A Python call either returns a value or raises. *)
Inductive result (A : Type) : Type :=
| Ok (a : A)
| Raise (e : exn).
Arguments Ok {A} a.
Arguments Raise {A} e.

Definition bind {A B : Type} (r : result A) (k : A -> result B) : result B :=
  match r with
  | Ok a => k a
  | Raise e => Raise e
  end.

Definition returns {A : Type} (r : result A) : Prop := exists a, r = Ok a.
Definition raises {A : Type} (r : result A) : Prop := exists e, r = Raise e.

(** [str(n)] for a Python int: decimal digits, a leading minus sign for
    negative numbers, no leading zeros. *)
Definition str (n : Z) : string := NilZero.string_of_int (Z.to_int n).

(** [sep.join(parts)]. *)
Definition join (sep : string) (parts : list string) : string :=
  String.concat sep parts.

Fixpoint zeros (n : nat) : string :=
  match n with
  | O => ""
  | S k => String "0" (zeros k)
  end.

(** [s.zfill(width)]: pad with zeros on the left up to [width], keeping a
    leading sign in front of the padding. *)
Definition zfill (width : nat) (s : string) : string :=
  let n := String.length s in
  if (width <=? n)%nat then s
  else
    match s with
    | String c rest =>
        if (Ascii.eqb c "-" || Ascii.eqb c "+")%bool
        then String c (zeros (width - n) ++ rest)
        else zeros (width - n) ++ s
    | EmptyString => zeros width
    end.

(** [int(s)] on a decimal literal with an optional minus sign. *)
Definition int_of (s : string) : option Z :=
  option_map Z.of_int (NilZero.int_of_string s).

(** No minus sign occurs in [s]. *)
Fixpoint dash_free (s : string) : bool :=
  match s with
  | EmptyString => true
  | String c rest => negb (Ascii.eqb c "-") && dash_free rest
  end.

(** [s.replace(old, new)] for a non-empty [old]: occurrences are replaced
    from left to right and do not overlap.  [skip] counts the characters of
    a matched occurrence still to be dropped. *)
Fixpoint replace_from (skip : nat) (old new s : string) : string :=
  match s with
  | EmptyString => EmptyString
  | String c s' =>
      match skip with
      | S k => replace_from k old new s'
      | O =>
          if String.prefix old s
          then new ++ replace_from (String.length old - 1) old new s'
          else String c (replace_from 0 old new s')
      end
  end.

Definition replace (old new s : string) : string := replace_from 0 old new s.

(** [needle in haystack] for two strings. *)
Fixpoint substring_of (needle haystack : string) : bool :=
  String.prefix needle haystack ||
  match haystack with
  | EmptyString => false
  | String _ rest => substring_of needle rest
  end.

(** [os.path.join(a, b)] on a POSIX system. *)
Definition ends_with_slash (a : string) : bool :=
  match String.get (String.length a - 1) a with
  | Some c => Ascii.eqb c "/"
  | None => false
  end.

Definition os_path_join (a b : string) : string :=
  if String.prefix "/" b then b
  else if (String.eqb a "" || ends_with_slash a)%bool then a ++ b
  else a ++ "/" ++ b.

(** Python objects that reach the configuration mappings: the core YAML
    types as [yaml.SafeLoader] builds them (null, booleans, integers,
    floats, strings, sequences, mappings) and what the command line
    contributes.  A float is carried as its binary64 bit pattern, since the
    code stores floats and never computes with them.  A dict is an
    association list in insertion order with pairwise distinct keys. *)
Inductive pyval : Type :=
| PNone
| PBool (b : bool)
| PInt (n : Z)
| PFloat (bits : Z)
| PStr (s : string)
| PList (items : list pyval)
| PDict (entries : list (pyval * pyval)).

Definition dict : Type := list (pyval * pyval).

(** Equality of dictionary keys.  [True == 1] and [False == 0] as in
    Python; floats are compared by bit pattern, so a float key is never
    identified with an equal integer key. *)
Definition key_eqb (a b : pyval) : bool :=
  match a, b with
  | PNone, PNone => true
  | PBool x, PBool y => Bool.eqb x y
  | PBool x, PInt n | PInt n, PBool x => Z.eqb (if x then 1 else 0) n
  | PInt m, PInt n => Z.eqb m n
  | PFloat x, PFloat y => Z.eqb x y
  | PStr s, PStr t => String.eqb s t
  | _, _ => false
  end.

Definition hashable (k : pyval) : bool :=
  match k with
  | PList _ | PDict _ => false
  | _ => true
  end.

Fixpoint dict_find (k : pyval) (d : dict) : option pyval :=
  match d with
  | [] => None
  | (k', v) :: rest => if key_eqb k' k then Some v else dict_find k rest
  end.

(** [d[k] = v] on a dict: an existing key keeps its position. *)
Fixpoint dict_set (k v : pyval) (d : dict) : dict :=
  match d with
  | [] => [(k, v)]
  | (k', v') :: rest =>
      if key_eqb k' k then (k', v) :: rest else (k', v') :: dict_set k v rest
  end.

Definition dict_merge (d other : dict) : dict :=
  fold_left (fun acc kv => dict_set (fst kv) (snd kv) acc) other d.

(** Iterating a string yields its one-character strings. *)
Definition chars (s : string) : list pyval :=
  map (fun c => PStr (String c EmptyString)) (list_ascii_of_string s).

(** One element of the iterable given to [dict.update]: it must itself be
    an iterable of exactly two items, the key and the value. *)
Definition as_pair (e : pyval) : result (pyval * pyval) :=
  match e with
  | PList [k; v] => Ok (k, v)
  | PList _ => Raise ValueError
  | PStr s =>
      match chars s with
      | [k; v] => Ok (k, v)
      | _ => Raise ValueError
      end
  | PDict [(k1, _); (k2, _)] => Ok (k1, k2)
  | PDict _ => Raise ValueError
  | _ => Raise TypeError
  end.

Fixpoint update_pairs (d : dict) (items : list pyval) : result dict :=
  match items with
  | [] => Ok d
  | e :: rest =>
      bind (as_pair e) (fun kv =>
        if hashable (fst kv)
        then update_pairs (dict_set (fst kv) (snd kv) d) rest
        else Raise TypeError)
  end.

(** [d.update(other)] on a dict [d]: [other] is a mapping, or an iterable
    of key/value pairs; anything that is not iterable raises [TypeError]. *)
Definition dict_update (d : dict) (other : pyval) : result dict :=
  match other with
  | PDict o => Ok (dict_merge d o)
  | PList items => update_pairs d items
  | PStr s => update_pairs d (chars s)
  | PNone | PBool _ | PInt _ | PFloat _ => Raise TypeError
  end.

(** [o.update(other)] on any object: only a dict has the method. *)
Definition update (o other : pyval) : result pyval :=
  match o with
  | PDict d => bind (dict_update d other) (fun d' => Ok (PDict d'))
  | _ => Raise AttributeError
  end.

(** [o.get(k)] with a string key: [None] when the key is missing. *)
Definition get (o : pyval) (k : string) : result pyval :=
  match o with
  | PDict d =>
      match dict_find (PStr k) d with
      | Some v => Ok v
      | None => Ok PNone
      end
  | _ => Raise AttributeError
  end.

(** [o[k]] with a string key. *)
Definition getitem (o : pyval) (k : string) : result pyval :=
  match o with
  | PDict d =>
      match dict_find (PStr k) d with
      | Some v => Ok v
      | None => Raise KeyError
      end
  | _ => Raise TypeError
  end.

(** [o[k] = v] with a string key: lists and strings reject a string index,
    the other objects do not support item assignment. *)
Definition setitem (o : pyval) (k : string) (v : pyval) : result pyval :=
  match o with
  | PDict d => Ok (PDict (dict_set (PStr k) v d))
  | _ => Raise TypeError
  end.

(** [k in o] with a string [k]. *)
Definition contains (k : string) (o : pyval) : result bool :=
  match o with
  | PDict d =>
      Ok (match dict_find (PStr k) d with Some _ => true | None => false end)
  | PList items => Ok (existsb (key_eqb (PStr k)) items)
  | PStr s => Ok (substring_of k s)
  | PNone | PBool _ | PInt _ | PFloat _ => Raise TypeError
  end.

(** The character [c] does not occur in [s]. *)
Fixpoint char_free (c : ascii) (s : string) : bool :=
  match s with
  | EmptyString => true
  | String x rest => negb (Ascii.eqb x c) && char_free c rest
  end.

(** Sequencing of calls that may raise. *)
Notation "x <- e ;; k" := (bind e (fun x => k))
  (at level 61, e at next level, right associativity).

End Py.

(* ================================================================== *)
(** ** The benchmark driver ([safepo/single_agent/benchmark.py]) *)
(* ================================================================== *)

Module Benchmark.
Import Py.

Definition navi_robots : list string := ["Car"; "Point"; "Racecar"].
Definition navi_tasks : list string := ["Button"; "Circle"; "Goal"; "Push"].
Definition diffculies : list string := ["1"; "2"].
Definition vel_robots : list string :=
  ["Ant"; "HalfCheetah"; "Hopper"; "Walker2d"; "Swimmer"; "Humanoid"].
Definition vel_tasks : list string := ["Velocity"].

Definition navi_envs : list string :=
  flat_map (fun diffculty =>
    flat_map (fun robot =>
      map (fun task => "Safety" ++ robot ++ task ++ diffculty ++ "-v0")
          navi_tasks)
      navi_robots)
    diffculies.

Definition vel_envs : list string :=
  flat_map (fun robot =>
    map (fun task => "Safety" ++ robot ++ task ++ "-v1") vel_tasks)
    vel_robots.

(** The namespace returned by [parse_args]. *)
Record Args : Type := {
  env_ids : list string;
  algo : list string;
  num_seeds : Z;
  start_seed : Z;
  workers : Z;
  experiment : string
}.

(** What [parse_args] returns when no flag is given. *)
Definition default_args : Args := {|
  env_ids := (navi_envs ++ vel_envs)%list;
  algo := ["pcpo"; "ppo_lag"; "cup"; "focops"; "rcpo"; "trpo_lag"; "cpo";
           "cppo_pid"];
  num_seeds := 3;
  start_seed := 0;
  workers := 48;
  experiment := "benchmark_single_env_8_14"
|}.

Definition with_workers (w : Z) (a : Args) : Args := {|
  env_ids := env_ids a;
  algo := algo a;
  num_seeds := num_seeds a;
  start_seed := start_seed a;
  workers := w;
  experiment := experiment a
|}.

(** [range(0, n)]: empty when [n <= 0]. *)
Definition range (n : Z) : list Z := map Z.of_nat (seq 0 (Z.to_nat n)).

Definition log_dir : string := "../runs".

(** The list handed to [" ".join] for one (seed, env_id, algo). *)
Definition command_parts (args : Args) (seed : Z) (env_id algo : string)
  : list string :=
  [ "python " ++ algo ++ ".py";
    "--env-id";
    env_id;
    "--seed";
    str (start_seed args + 1000 * seed);
    "--write-terminal";
    "False";
    "--log-dir";
    log_dir;
    "--experiment";
    experiment args ].

Definition command (args : Args) (seed : Z) (env_id algo : string) : string :=
  join " " (command_parts args seed env_id algo).

(** The three nested loops of the script, each iteration appending one
    command to [commands]. *)
Definition commands (args : Args) : list string :=
  fold_left (fun commands seed =>
    fold_left (fun commands env_id =>
      fold_left (fun commands algo =>
        (commands ++ [command args seed env_id algo])%list)
        (algo args) commands)
      (env_ids args) commands)
    (range (num_seeds args)) [].

(** The run descriptors: seed index, environment id, algorithm. *)
Definition descriptors (args : Args) : list (Z * (string * string)) :=
  list_prod (range (num_seeds args)) (list_prod (env_ids args) (algo args)).

Definition command_of (args : Args) (d : Z * (string * string)) : string :=
  command args (fst d) (fst (snd d)) (snd (snd d)).

(** The flag contract of the training entry points. *)
Definition flags : list string :=
  ["--env-id"; "--seed"; "--write-terminal"; "--log-dir"; "--experiment"].

(** How many of the parts of a command are exactly [flag]. *)
Definition occurrences (flag : string) (parts : list string) : nat :=
  count_occ string_dec parts flag.

(** What a worker does that can be seen from outside. *)
Inductive event : Type :=
| Print (line : string)
| Popen (command_list : list string)
| Wait (return_code : Z).

Definition header : string := "======= commands to run:".
Definition not_running : string :=
  "not running the experiments because --workers is set to 0; just printing the commands to run".

Section Driver.

(** [shlex.split]: the argument list of a command line, or [ValueError]
    on an unbalanced quotation. *)
Variable shlex_split : string -> result (list string).

(** The operating system: [subprocess.Popen] on an argument list either
    fails to start the process or starts one whose [wait()] yields the
    given return code. *)
Variable spawn : list string -> result Z.

(** [run_experiment(command)]: the events it causes, in order, and how
    the call ends. *)
Definition run_experiment (command : string) : list event * result unit :=
  match shlex_split command with
  | Raise e => ([], Raise e)
  | Ok command_list =>
      let printed := [Print ("running " ++ command)] in
      match spawn command_list with
      | Raise e => (printed, Raise e)
      | Ok return_code =>
          ((printed ++ [Popen command_list; Wait return_code])%list,
           if Z.eqb return_code 0 then Ok tt else Raise AssertionError)
      end
  end.

(** One run of the script: the lines the main thread prints, and one job
    per call of [executor.submit], in submission order.  A job is the
    call [run_experiment(command)] made by a pool thread; its exception,
    if any, ends the job and is not looked at by the script. *)
Record Run : Type := {
  printed : list string;
  jobs : list (string * (list event * result unit))
}.

Definition main (args : Args) : Run :=
  let commands := commands args in
  let printed := header :: commands in
  if (workers args >? 0)%Z
  then {| printed := printed;
          jobs := map (fun command => (command, run_experiment command))
                      commands |}
  else {| printed := (printed ++ [not_running])%list; jobs := [] |}.

(** The [Popen] events of a run, over all jobs. *)
Definition is_popen (e : event) : bool :=
  match e with Popen _ => true | _ => false end.

Definition subprocesses (r : Run) : list event :=
  flat_map (fun job => filter is_popen (fst (snd job))) (jobs r).

End Driver.

(** A splitter on single spaces; it agrees with [shlex.split] on command
    lines without quotes, backslashes or repeated blanks, and serves as the
    sample environment of the examples. *)
Fixpoint split_spaces (cur : string) (s : string) : list string :=
  match s with
  | EmptyString => [cur]
  | String c rest =>
      if Ascii.eqb c " " then cur :: split_spaces "" rest
      else split_spaces (cur ++ String c "") rest
  end.

Definition sample_split (s : string) : result (list string) :=
  Ok (split_spaces "" s).

(** A sample operating system in which every training script fails with
    return code 1. *)
Definition sample_spawn_failing (argv : list string) : result Z := Ok 1%Z.

Definition sample_args : Args := {|
  env_ids := ["SafetyPointGoal1-v0"; "SafetyAntVelocity-v1"];
  algo := ["cpo"; "ppo_lag"; "cup"];
  num_seeds := 2;
  start_seed := 7;
  workers := 4;
  experiment := "bench"
|}.

(** The [Future] of [executor.submit(fn, arg)]: a pool thread runs the call
    and the Future keeps how it ended.  [submit] itself never raises in the
    caller; only [Future.result()] raises a kept exception again. *)
Record Future : Type := { kept : result unit }.

Definition submit (call : list event * result unit) : Future :=
  {| kept := snd call |}.

Definition future_result (f : Future) : result unit := kept f.

(** How the script itself ends (lines 106-118).  The value of each
    [executor.submit(run_experiment, command)] is dropped, and
    [executor.shutdown(wait=True)] only waits for the jobs: the main thread
    goes through the loop and ends normally, with exit status 0. *)
Definition script_ends (shlex_split : string -> result (list string))
           (spawn : list string -> result Z) (args : Args) : result unit :=
  if (workers args >? 0)%Z
  then
    fold_left
      (fun ended command =>
         bind ended (fun _ =>
           let future := submit (run_experiment shlex_split spawn command) in
           Ok tt))
      (commands args) (Ok tt)
  else Ok tt.

(** Whether the subprocess of a command gets started: its text splits and
    [Popen] succeeds on the result. *)
Definition starts (shlex_split : string -> result (list string))
           (spawn : list string -> result Z) (command : string) : bool :=
  match shlex_split command with
  | Ok command_list =>
      match spawn command_list with
      | Ok _ => true
      | Raise _ => false
      end
  | Raise _ => false
  end.

(** A sample operating system in which every training script succeeds. *)
Definition sample_spawn_ok (argv : list string) : result Z := Ok 0%Z.

(** An experiment named like a flag, as [--experiment=--seed] passes it. *)
Definition flag_named_args : Args := {|
  env_ids := ["SafetyPointGoal1-v0"];
  algo := ["cpo"];
  num_seeds := 1;
  start_seed := 0;
  workers := 0;
  experiment := "--seed"
|}.

End Benchmark.

(* ================================================================== *)
(** ** The config builder ([safepo/utils/config.py]) *)
(* ================================================================== *)

Module Config.
Import Py.

(** The namespace of parsed flags.  The first fourteen fields are the
    [custom_parameters] with the types their [type] entries produce (the
    float [safety_bound] as its binary64 bit pattern).  The last three are
    attributes the code reads but does not declare itself: they can only
    come from the simulator's parser, and reading an absent one raises
    [AttributeError]. *)
Record Namespace : Type := {
  use_eval : bool;
  task : string;
  agent_conf : string;
  scenario : string;
  experiment : string;
  seed : Z;
  model_dir : string;
  safety_bound : Z;
  device : string;
  device_id : Z;
  write_terminal : bool;
  headless : bool;
  total_steps : option Z;
  num_envs : option Z;
  sim_device_type : option string;
  use_gpu_pipeline : option bool;
  randomize : option pyval
}.

(** The defaults of [custom_parameters] (25.0 as a binary64 pattern). *)
Definition default_namespace : Namespace := {|
  use_eval := false;
  task := "MujocoVelocity";
  agent_conf := "2x1";
  scenario := "Swimmer";
  experiment := "Base";
  seed := 0;
  model_dir := "";
  safety_bound := 4627730092099895296;
  device := "cpu";
  device_id := 0;
  write_terminal := true;
  headless := false;
  total_steps := None;
  num_envs := None;
  sim_device_type := None;
  use_gpu_pipeline := None;
  randomize := None
|}.

(** [args.device = d]. *)
Definition set_device (d : string) (a : Namespace) : Namespace := {|
  use_eval := use_eval a;
  task := task a;
  agent_conf := agent_conf a;
  scenario := scenario a;
  experiment := experiment a;
  seed := seed a;
  model_dir := model_dir a;
  safety_bound := safety_bound a;
  device := d;
  device_id := device_id a;
  write_terminal := write_terminal a;
  headless := headless a;
  total_steps := total_steps a;
  num_envs := num_envs a;
  sim_device_type := sim_device_type a;
  use_gpu_pipeline := use_gpu_pipeline a;
  randomize := randomize a
|}.

(** Reading an attribute that may be missing. *)
Definition attr {A : Type} (o : option A) : result A :=
  match o with
  | Some a => Ok a
  | None => Raise AttributeError
  end.

(** Everything [multi_agent_args] takes from outside the interpreter. *)
Record World : Type := {
  (** [parser.parse_args()] on the process's command line *)
  parse_args : Namespace;
  (** [None] when [isaacgym] cannot be imported; otherwise what
      [gymutil.parse_arguments] returns for the same command line *)
  gymutil_parse_arguments : option Namespace;
  (** [os.path.dirname(os.path.abspath(__file__))] *)
  module_dir : string;
  (** [os.getcwd()] *)
  getcwd : string;
  (** opening a path and loading it with [yaml.SafeLoader] *)
  yaml_load : string -> result pyval;
  (** [time.strftime("%Y-%m-%d-%H-%M-%S")] *)
  strftime : string
}.

Definition ShadowHandOver : string := "ShadowHandOver".
Definition ShadowHandCatchUnderarm : string := "ShadowHandCatchUnderarm".
Definition MujocoVelocity : string := "MujocoVelocity".

Definition shadow_tasks : list string :=
  [ShadowHandOver; ShadowHandCatchUnderarm].

(** [x in names] for a list of strings. *)
Definition in_list (x : string) (names : list string) : bool :=
  existsb (String.eqb x) names.

Definition config_map : list (string * string) :=
  [ (ShadowHandOver, "shadow_hand_over");
    (ShadowHandCatchUnderarm, "shadow_hand_catch_underarm") ].

(** [config_map[key]]. *)
Fixpoint lookup (key : string) (m : list (string * string)) : result string :=
  match m with
  | [] => Raise KeyError
  | (k, v) :: rest => if String.eqb k key then Ok v else lookup key rest
  end.

Definition warn_task_name {A : Type} : result A :=
  Raise (Exception "Unrecognized task!").

Definition install_isaacgym : exn :=
  Exception "Please install isaacgym to run ShadowHand tasks!".

(** Lines 155-163: the flags are parsed, and parsed again by the simulator
    for the two ShadowHand tasks. *)
Definition parsed_args (w : World) : result Namespace :=
  let args := parse_args w in
  if in_list (task args) shadow_tasks then
    match gymutil_parse_arguments w with
    | None => Raise install_isaacgym
    | Some args =>
        gpu <- attr (use_gpu_pipeline args) ;;
        if gpu : bool
        then d <- attr (sim_device_type args) ;; Ok (set_device d args)
        else Ok (set_device "cpu" args)
    end
  else Ok args.

Definition env_name_of (args : Namespace) : string :=
  if String.eqb (task args) MujocoVelocity
  then "Safety" ++ agent_conf args ++ scenario args ++ "Velocity-v0"
  else task args.

(** Lines 190-193. *)
Definition log_dir_of (args : Namespace) (algo now : string) : string :=
  let relpath := now in
  let subfolder := join "-" ["seed"; zfill 3 (str (seed args))] in
  let relpath := join "-" [subfolder; relpath] in
  "../runs/" ++ experiment args ++ "/" ++ env_name_of args ++ "/" ++ algo
    ++ "/" ++ relpath.

(** Lines 168-173: the training configuration is loaded and, for
    MujocoVelocity, its [mamujoco] entry is merged into it. *)
Definition cfg_train_file (w : World) (algo : string) : string :=
  let cfg_train_path := "marl_cfg/" ++ algo ++ "/config.yaml" in
  let base_path := replace "utils" "multi_agent" (module_dir w) in
  os_path_join base_path cfg_train_path.

Definition load_cfg_train (w : World) (args : Namespace) (algo : string)
  : result pyval :=
  cfg_train <- yaml_load w (cfg_train_file w algo) ;;
  if String.eqb (task args) MujocoVelocity
  then mamujoco <- get cfg_train "mamujoco" ;; update cfg_train mamujoco
  else Ok cfg_train.

(** Lines 174-193: the fields derived from the command line are laid over
    the loaded configuration. *)
Definition overlay_cfg_train (w : World) (args : Namespace) (algo : string)
           (cfg_train : pyval) : result pyval :=
  cfg_train <- setitem cfg_train "use_eval" (PBool (use_eval args)) ;;
  cfg_train <- setitem cfg_train "safety_bound" (PFloat (safety_bound args)) ;;
  cfg_train <- setitem cfg_train "algorithm_name" (PStr algo) ;;
  cfg_train <- setitem cfg_train "device"
                 (PStr (device args ++ ":" ++ str (device_id args))) ;;
  let env_name := env_name_of args in
  cfg_train <- setitem cfg_train "env_name" (PStr env_name) ;;
  cfg_train <-
    (match total_steps args with
     | Some n =>
         if Z.eqb n 0 then Ok cfg_train
         else setitem cfg_train "num_env_steps" (PInt n)
     | None => Ok cfg_train
     end) ;;
  cfg_train <-
    (match num_envs args with
     | Some n =>
         if Z.eqb n 0 then Ok cfg_train
         else
           cfg_train <- setitem cfg_train "n_rollout_threads" (PInt n) ;;
           setitem cfg_train "n_eval_rollout_threads" (PInt n)
     | None => Ok cfg_train
     end) ;;
  setitem cfg_train "log_dir" (PStr (log_dir_of args algo (strftime w))).

Definition build_cfg_train (w : World) (args : Namespace) (algo : string)
  : result pyval :=
  cfg_train <- load_cfg_train w args algo ;;
  overlay_cfg_train w args algo cfg_train.

(** Line 196-197: the file of the environment configuration. *)
Definition cfg_env_file (w : World) (name : string) : string :=
  let cfg_env_path := "marl_cfg/" ++ name ++ ".yaml" in
  os_path_join (getcwd w) cfg_env_path.

(** Lines 196-206: the environment configuration of a ShadowHand task.
    The task sub-mapping is one object shared with [cfg_env], so the
    assignment to its key is written back into [cfg_env].  The loaded
    document is taken without YAML aliases: the task sub-mapping is
    reachable under the key [task] only, so no other entry of [cfg_env]
    changes with it. *)
Definition load_cfg_env (w : World) (args : Namespace) : result pyval :=
  name <- lookup (task args) config_map ;;
  cfg_env <- yaml_load w (cfg_env_file w name) ;;
  cfg_env <- setitem cfg_env "name" (PStr (task args)) ;;
  has_task <- contains "task" cfg_env ;;
  if has_task : bool then
    sub <- getitem cfg_env "task" ;;
    has_randomize <- contains "randomize" sub ;;
    if negb has_randomize then
      value <- attr (randomize args) ;;
      sub <- getitem cfg_env "task" ;;
      sub <- setitem sub "randomize" value ;;
      setitem cfg_env "task" sub
    else
      sub <- getitem cfg_env "task" ;;
      sub <- setitem sub "randomize" (PBool false) ;;
      setitem cfg_env "task" sub
  else
    setitem cfg_env "task" (PDict [(PStr "randomize", PBool false)]).

(** Lines 194-210. *)
Definition build_cfg_env (w : World) (args : Namespace) : result pyval :=
  if in_list (task args) shadow_tasks then load_cfg_env w args
  else if String.eqb (task args) MujocoVelocity then Ok (PDict [])
  else warn_task_name.

Definition multi_agent_args (w : World) (algo : string)
  : result (Namespace * pyval * pyval) :=
  args <- parsed_args w ;;
  cfg_train <- build_cfg_train w args algo ;;
  cfg_env <- build_cfg_env w args ;;
  Ok (args, cfg_env, cfg_train).

(** What [dict.update] can take as its argument without raising at once:
    a mapping, a sequence, or the empty string. *)
Definition mergeable (v : pyval) : Prop :=
  match v with
  | PDict _ | PList _ => True
  | PStr s => s = ""
  | PNone | PBool _ | PInt _ | PFloat _ => False
  end.

(** *** Sample worlds *)

(** A file system given by the files it holds. *)
Fixpoint read_from (files : list (string * pyval)) (path : string)
  : result pyval :=
  match files with
  | [] => Raise OSError
  | (name, content) :: rest =>
      if String.eqb name path then Ok content else read_from rest path
  end.

Definition sample_cfg_train : pyval :=
  PDict [ (PStr "gamma", PFloat 4607092346807469998);
          (PStr "hidden_size", PInt 128);
          (PStr "n_rollout_threads", PInt 10);
          (PStr "mamujoco",
           PDict [ (PStr "hidden_size", PInt 256);
                   (PStr "num_env_steps", PInt 10000000) ]) ].

Definition sample_cfg_env (task_entries : list (pyval * pyval)) : pyval :=
  PDict [ (PStr "env", PDict [(PStr "numEnvs", PInt 2048)]);
          (PStr "task", PDict task_entries) ].

Definition sample_files (cfg_train : pyval)
           (task_entries : list (pyval * pyval)) : list (string * pyval) :=
  [ ("/opt/safepo/multi_agent/marl_cfg/mappo/config.yaml", cfg_train);
    ("/work/marl_cfg/shadow_hand_over.yaml", sample_cfg_env task_entries) ].

(** A MujocoVelocity run of [mappo] with the given flags, at the given
    moment, on the given training configuration. *)
Definition mujoco_world (args : Namespace) (now : string) (cfg_train : pyval)
  : World := {|
  parse_args := args;
  gymutil_parse_arguments := None;
  module_dir := "/opt/safepo/utils";
  getcwd := "/work";
  yaml_load := read_from (sample_files cfg_train []);
  strftime := now
|}.

Definition with_task (t : string) (a : Namespace) : Namespace := {|
  use_eval := use_eval a;
  task := t;
  agent_conf := agent_conf a;
  scenario := scenario a;
  experiment := experiment a;
  seed := seed a;
  model_dir := model_dir a;
  safety_bound := safety_bound a;
  device := device a;
  device_id := device_id a;
  write_terminal := write_terminal a;
  headless := headless a;
  total_steps := total_steps a;
  num_envs := num_envs a;
  sim_device_type := sim_device_type a;
  use_gpu_pipeline := use_gpu_pipeline a;
  randomize := randomize a
|}.

Definition with_seed (s : Z) (a : Namespace) : Namespace := {|
  use_eval := use_eval a;
  task := task a;
  agent_conf := agent_conf a;
  scenario := scenario a;
  experiment := experiment a;
  seed := s;
  model_dir := model_dir a;
  safety_bound := safety_bound a;
  device := device a;
  device_id := device_id a;
  write_terminal := write_terminal a;
  headless := headless a;
  total_steps := total_steps a;
  num_envs := num_envs a;
  sim_device_type := sim_device_type a;
  use_gpu_pipeline := use_gpu_pipeline a;
  randomize := randomize a
|}.

(** What the simulator's parser adds to the flags: a device type, the
    pipeline switch and, when [with_randomize] is given, a [randomize]
    attribute. *)
Definition simulator_namespace (with_randomize : option pyval) : Namespace := {|
  use_eval := false;
  task := ShadowHandOver;
  agent_conf := "2x1";
  scenario := "Swimmer";
  experiment := "Base";
  seed := 0;
  model_dir := "";
  safety_bound := 4627730092099895296;
  device := "cpu";
  device_id := 0;
  write_terminal := true;
  headless := false;
  total_steps := Some 2000%Z;
  num_envs := Some 64%Z;
  sim_device_type := Some "cuda";
  use_gpu_pipeline := Some true;
  randomize := with_randomize
|}.

(** A ShadowHandOver run of [mappo] with the simulator installed, on an
    environment file whose task sub-mapping has the given entries. *)
Definition shadow_world (with_randomize : option pyval)
           (task_entries : list (pyval * pyval)) : World := {|
  parse_args := with_task ShadowHandOver default_namespace;
  gymutil_parse_arguments := Some (simulator_namespace with_randomize);
  module_dir := "/opt/safepo/utils";
  getcwd := "/work";
  yaml_load := read_from (sample_files sample_cfg_train task_entries);
  strftime := "2023-08-14-09-30-00"
|}.

(** The module-level table of multi-agent velocity environments: the
    environment name, with its agent configuration and its scenario. *)
Definition multi_agent_velocity_map : list (string * (string * string)) :=
  [ ("Safety2x4AntVelocity-v0", ("2x4", "Ant"));
    ("Safety4x2AntVelocity-v0", ("4x2", "Ant"));
    ("Safety2x3HalfCheetahVelocity-v0", ("2x3", "HalfCheetah"));
    ("Safety6x1HalfCheetahVelocity-v0", ("6x1", "HalfCheetah"));
    ("Safety3x1HopperVelocity-v0", ("3x1", "Hopper"));
    ("Safety2x3Walker2dVelocity-v0", ("2x3", "Walker2d"));
    ("Safety2x1SwimmerVelocity-v0", ("2x1", "Swimmer"));
    ("Safety9|8HumanoidVelocity-v0", ("9|8", "Humanoid")) ].

(** The keys [multi_agent_args] assigns in [cfg_train]. *)
Definition derived_keys : list string :=
  [ "use_eval"; "safety_bound"; "algorithm_name"; "device"; "env_name";
    "num_env_steps"; "n_rollout_threads"; "n_eval_rollout_threads";
    "log_dir" ].

(** [if n:] on an optional integer flag. *)
Definition given (o : option Z) : option Z :=
  match o with
  | Some n => if Z.eqb n 0 then None else Some n
  | None => None
  end.

Definition with_steps (steps envs : option Z) (a : Namespace) : Namespace := {|
  use_eval := use_eval a;
  task := task a;
  agent_conf := agent_conf a;
  scenario := scenario a;
  experiment := experiment a;
  seed := seed a;
  model_dir := model_dir a;
  safety_bound := safety_bound a;
  device := device a;
  device_id := device_id a;
  write_terminal := write_terminal a;
  headless := headless a;
  total_steps := steps;
  num_envs := envs;
  sim_device_type := sim_device_type a;
  use_gpu_pipeline := use_gpu_pipeline a;
  randomize := randomize a
|}.

(** A ShadowHandOver run with the simulator installed and its GPU pipeline
    switched off. *)
Definition cpu_pipeline_namespace : Namespace := {|
  use_eval := false;
  task := ShadowHandOver;
  agent_conf := "2x1";
  scenario := "Swimmer";
  experiment := "Base";
  seed := 0;
  model_dir := "";
  safety_bound := 4627730092099895296;
  device := "cuda";
  device_id := 0;
  write_terminal := true;
  headless := false;
  total_steps := None;
  num_envs := None;
  sim_device_type := Some "cuda";
  use_gpu_pipeline := Some false;
  randomize := None
|}.

Definition cpu_pipeline_world : World := {|
  parse_args := with_task ShadowHandOver default_namespace;
  gymutil_parse_arguments := Some cpu_pipeline_namespace;
  module_dir := "/opt/safepo/utils";
  getcwd := "/work";
  yaml_load :=
    read_from (sample_files sample_cfg_train [(PStr "randomize", PBool true)]);
  strftime := "2023-08-14-09-30-00"
|}.

(** A ShadowHandOver run on a machine without the simulator. *)
Definition world_without_simulator : World := {|
  parse_args := with_task ShadowHandOver default_namespace;
  gymutil_parse_arguments := None;
  module_dir := "/opt/safepo/utils";
  getcwd := "/work";
  yaml_load := read_from (sample_files sample_cfg_train []);
  strftime := "2023-08-14-09-30-00"
|}.

End Config.

(* ================================================================== *)
(** ** The simulator parameters ([parse_sim_params]) *)
(* ================================================================== *)

Module Sim.
Import Py.

(** [args.physics_engine] as the code tests it: the two engines of
    [gymapi] it names, or anything else. *)
Inductive engine : Type :=
| SIM_PHYSX
| SIM_FLEX
| OtherEngine.

Definition is_flex (e : engine) : bool :=
  match e with SIM_FLEX => true | _ => false end.

Definition is_physx (e : engine) : bool :=
  match e with SIM_PHYSX => true | _ => false end.

(** The attributes of [args] the function reads. *)
Record SimArgs : Type := {
  arg_slices : Z;
  arg_physics_engine : engine;
  arg_device : string;
  arg_use_gpu : bool;
  arg_subscenes : Z;
  arg_use_gpu_pipeline : bool;
  arg_num_threads : Z
}.

(** [sim_params.flex]: the attributes the function assigns, and the
    others.  Floats are binary64 bit patterns. *)
Record FlexParams : Type := {
  shape_collision_margin : Z;
  num_outer_iterations : Z;
  num_inner_iterations : Z;
  flex_other : pyval
}.

(** [sim_params.physx]. *)
Record PhysXParams : Type := {
  solver_type : Z;
  num_position_iterations : Z;
  num_velocity_iterations : Z;
  num_threads : Z;
  use_gpu : bool;
  num_subscenes : Z;
  max_gpu_contact_pairs : Z;
  physx_other : pyval
}.

(** [gymapi.SimParams]. *)
Record SimParams : Type := {
  dt : Z;
  num_client_threads : Z;
  flex : FlexParams;
  physx : PhysXParams;
  use_gpu_pipeline : bool;
  sim_other : pyval
}.

(** What [from isaacgym import gymapi, gymutil] provides: a fresh
    [gymapi.SimParams()] and [gymutil.parse_sim_config], which updates the
    parameters it is given from a configuration section, or raises. *)
Record Gym : Type := {
  new_sim_params : SimParams;
  parse_sim_config : pyval -> SimParams -> result SimParams
}.

(** 1./60. and 0.01 *)
Definition one_sixtieth : Z := 4580461061010952465.
Definition one_hundredth : Z := 4576918229304087675.

Definition with_flex (f : FlexParams) (p : SimParams) : SimParams := {|
  dt := dt p;
  num_client_threads := num_client_threads p;
  flex := f;
  physx := physx p;
  use_gpu_pipeline := use_gpu_pipeline p;
  sim_other := sim_other p
|}.

Definition with_physx (x : PhysXParams) (p : SimParams) : SimParams := {|
  dt := dt p;
  num_client_threads := num_client_threads p;
  flex := flex p;
  physx := x;
  use_gpu_pipeline := use_gpu_pipeline p;
  sim_other := sim_other p
|}.

(** Lines 94-96. *)
Definition set_timing (args : SimArgs) (p : SimParams) : SimParams := {|
  dt := one_sixtieth;
  num_client_threads := arg_slices args;
  flex := flex p;
  physx := physx p;
  use_gpu_pipeline := use_gpu_pipeline p;
  sim_other := sim_other p
|}.

(** Lines 101-103. *)
Definition set_flex (p : SimParams) : SimParams :=
  with_flex {| shape_collision_margin := one_hundredth;
               num_outer_iterations := 4;
               num_inner_iterations := 10;
               flex_other := flex_other (flex p) |} p.

(** Lines 105-111. *)
Definition set_physx (args : SimArgs) (p : SimParams) : SimParams :=
  with_physx {| solver_type := 1;
                num_position_iterations := 4;
                num_velocity_iterations := 0;
                num_threads := 4;
                use_gpu := arg_use_gpu args;
                num_subscenes := arg_subscenes args;
                max_gpu_contact_pairs := 8 * 1024 * 1024;
                physx_other := physx_other (physx p) |} p.

(** Lines 113-114. *)
Definition set_gpu (args : SimArgs) (p : SimParams) : SimParams := {|
  dt := dt p;
  num_client_threads := num_client_threads p;
  flex := flex p;
  physx := {| solver_type := solver_type (physx p);
              num_position_iterations := num_position_iterations (physx p);
              num_velocity_iterations := num_velocity_iterations (physx p);
              num_threads := num_threads (physx p);
              use_gpu := arg_use_gpu args;
              num_subscenes := num_subscenes (physx p);
              max_gpu_contact_pairs := max_gpu_contact_pairs (physx p);
              physx_other := physx_other (physx p) |};
  use_gpu_pipeline := arg_use_gpu_pipeline args;
  sim_other := sim_other p
|}.

(** Line 122. *)
Definition set_num_threads (n : Z) (p : SimParams) : SimParams :=
  with_physx {| solver_type := solver_type (physx p);
                num_position_iterations := num_position_iterations (physx p);
                num_velocity_iterations := num_velocity_iterations (physx p);
                num_threads := n;
                use_gpu := use_gpu (physx p);
                num_subscenes := num_subscenes (physx p);
                max_gpu_contact_pairs := max_gpu_contact_pairs (physx p);
                physx_other := physx_other (physx p) |} p.

Definition flex_warning : string :=
  "WARNING: Using Flex with GPU instead of PHYSX!".

Definition install_isaacgym : exn :=
  Exception "Please install isaacgym to run ShadowHand tasks!".

(** [parse_sim_params(args, cfg, cfg_train)]: the lines it prints and how
    it ends.  [isaacgym] is [None] when the import fails. *)
Definition parse_sim_params (isaacgym : option Gym) (args : SimArgs)
           (cfg cfg_train : pyval) : list string * result SimParams :=
  match isaacgym with
  | None => ([], Raise install_isaacgym)
  | Some gym =>
      let sim_params := set_timing args (new_sim_params gym) in
      let '(printed, sim_params) :=
        if is_flex (arg_physics_engine args) then
          ((if negb (String.eqb (arg_device args) "cpu")
            then [flex_warning] else []),
           set_flex sim_params)
        else if is_physx (arg_physics_engine args) then
          ([], set_physx args sim_params)
        else ([], sim_params) in
      let sim_params := set_gpu args sim_params in
      (printed,
       has_sim <- contains "sim" cfg ;;
       sim_params <-
         (if has_sim : bool
          then section <- getitem cfg "sim" ;;
               parse_sim_config gym section sim_params
          else Ok sim_params) ;;
       if (is_physx (arg_physics_engine args)
           && (arg_num_threads args >? 0)%Z)%bool
       then Ok (set_num_threads (arg_num_threads args) sim_params)
       else Ok sim_params)
  end.

(** A sample [isaacgym] whose configuration parser takes the thread count
    and the time step from the section when it gives them. *)
Definition sample_params : SimParams := {|
  dt := 0;
  num_client_threads := 0;
  flex := {| shape_collision_margin := 0; num_outer_iterations := 0;
             num_inner_iterations := 0; flex_other := PNone |};
  physx := {| solver_type := 0; num_position_iterations := 0;
              num_velocity_iterations := 0; num_threads := 0;
              use_gpu := false; num_subscenes := 0;
              max_gpu_contact_pairs := 0; physx_other := PNone |};
  use_gpu_pipeline := false;
  sim_other := PNone
|}.

Definition sample_parse_sim_config (section : pyval) (p : SimParams)
  : result SimParams :=
  match section with
  | PDict entries =>
      match dict_find (PStr "num_threads") entries with
      | Some (PInt n) => Ok (set_num_threads n p)
      | Some _ => Raise TypeError
      | None => Ok p
      end
  | _ => Raise TypeError
  end.

Definition sample_gym : Gym := {|
  new_sim_params := sample_params;
  parse_sim_config := sample_parse_sim_config
|}.

Definition sample_sim_args : SimArgs := {|
  arg_slices := 2;
  arg_physics_engine := SIM_PHYSX;
  arg_device := "cuda";
  arg_use_gpu := true;
  arg_subscenes := 0;
  arg_use_gpu_pipeline := true;
  arg_num_threads := 8
|}.

Definition with_engine (e : engine) (device : string) (n : Z) (a : SimArgs)
  : SimArgs := {|
  arg_slices := arg_slices a;
  arg_physics_engine := e;
  arg_device := device;
  arg_use_gpu := arg_use_gpu a;
  arg_subscenes := arg_subscenes a;
  arg_use_gpu_pipeline := arg_use_gpu_pipeline a;
  arg_num_threads := n
|}.

End Sim.

(* ================================================================== *)
(** ** Facts about the run-time fragment *)
(* ================================================================== *)

Module PyFacts.
Import Py.

(** *** Strings *)

Lemma append_assoc (a b c : string) : (a ++ b) ++ c = a ++ (b ++ c).
Proof.
  induction a as [|x a IH]; simpl; [reflexivity | now rewrite IH].
Qed.

Lemma append_inv_head (a x y : string) : a ++ x = a ++ y -> x = y.
Proof.
  induction a as [|c a IH]; simpl; intros H; [assumption|].
  injection H as H. now apply IH.
Qed.

Lemma dash_free_append (a b : string) :
  dash_free (a ++ b) = dash_free a && dash_free b.
Proof.
  induction a as [|c a IH]; simpl; [reflexivity|].
  now rewrite IH, andb_assoc.
Qed.

Lemma dash_free_zeros (k : nat) : dash_free (zeros k) = true.
Proof.
  induction k as [|k IH]; simpl; [reflexivity | assumption].
Qed.

(** Cutting at the first minus sign: two dash-free heads followed by a
    minus sign agree as soon as the whole strings do. *)
Lemma split_at_dash (a b t1 t2 : string) :
  dash_free a = true -> dash_free b = true ->
  a ++ String "-" t1 = b ++ String "-" t2 -> a = b /\ t1 = t2.
Proof.
  revert b. induction a as [|c a IH]; intros [|c' b] Ha Hb H; simpl in *.
  - injection H as H. auto.
  - injection H as Hc _. subst c'. discriminate Hb.
  - injection H as Hc _. subst c. discriminate Ha.
  - injection H as Hc H. subst c'.
    apply andb_true_iff in Ha, Hb.
    destruct (IH b (proj2 Ha) (proj2 Hb) H) as [-> ->]. auto.
Qed.

(** *** Decimal numerals *)

Lemma dash_free_uint (u : Decimal.uint) :
  dash_free (NilEmpty.string_of_uint u) = true.
Proof.
  induction u; simpl; auto.
Qed.

Lemma string_of_uint_nonnil (u : Decimal.uint) :
  u <> Decimal.Nil ->
  NilZero.string_of_uint u = NilEmpty.string_of_uint u /\
  exists c rest, NilEmpty.string_of_uint u = String c rest /\
                 Ascii.eqb c "-" = false /\ Ascii.eqb c "+" = false.
Proof.
  destruct u; intros H; try congruence; simpl; (split; [reflexivity|]);
    eexists; eexists; (split; [reflexivity|]); split; reflexivity.
Qed.

Lemma zeros_uint (k : nat) (u : Decimal.uint) :
  zeros k ++ NilEmpty.string_of_uint u =
  NilEmpty.string_of_uint (Nat.iter k Decimal.D0 u).
Proof.
  induction k as [|k IH]; simpl; [reflexivity | now rewrite IH].
Qed.

Lemma of_uint_zeros (k : nat) (u : Decimal.uint) :
  Z.of_uint (Nat.iter k Decimal.D0 u) = Z.of_uint u.
Proof.
  induction k as [|k IH]; simpl; [reflexivity | exact IH].
Qed.

(** [str] yields a first character followed by digits only. *)
Lemma str_shape (n : Z) :
  exists c rest, str n = String c rest /\ dash_free rest = true.
Proof.
  unfold str. destruct n as [|p|p]; simpl.
  - exists "0"%char, "". auto.
  - destruct (string_of_uint_nonnil _ (Unsigned.to_uint_nonnil p))
      as [-> (c & rest & E & _)].
    exists c, rest. split; [assumption|].
    pose proof (dash_free_uint (Pos.to_uint p)) as H.
    rewrite E in H. simpl in H. now apply andb_true_iff in H.
  - destruct (string_of_uint_nonnil _ (Unsigned.to_uint_nonnil p)) as [-> _].
    exists "-"%char, (NilEmpty.string_of_uint (Pos.to_uint p)).
    split; [reflexivity | apply dash_free_uint].
Qed.

Lemma int_of_str (n : Z) : int_of (str n) = Some n.
Proof.
  unfold int_of, str.
  destruct n as [|p|p]; [reflexivity| |];
    rewrite NilZero.isi; simpl;
    try (intros [= E]; now apply (Unsigned.to_uint_nonnil p));
    try discriminate.
  - f_equal. exact (DecimalZ.of_to (Z.pos p)).
  - f_equal. exact (DecimalZ.of_to (Z.neg p)).
Qed.

Lemma iter_D0_nonnil (k : nat) (u : Decimal.uint) :
  u <> Decimal.Nil -> Nat.iter k Decimal.D0 u <> Decimal.Nil.
Proof.
  destruct k; simpl; [auto | discriminate].
Qed.

Lemma int_of_padded (k : nat) (u : Decimal.uint) :
  u <> Decimal.Nil ->
  int_of (zeros k ++ NilEmpty.string_of_uint u) = Some (Z.of_uint u).
Proof.
  intros Hu. rewrite zeros_uint.
  pose proof (iter_D0_nonnil k u Hu) as Hk.
  destruct (string_of_uint_nonnil _ Hk) as [E _].
  unfold int_of. rewrite <- E.
  change (NilZero.string_of_uint (Nat.iter k Decimal.D0 u))
    with (NilZero.string_of_int (Decimal.Pos (Nat.iter k Decimal.D0 u))).
  rewrite NilZero.isi by congruence.
  simpl. now rewrite of_uint_zeros.
Qed.

Lemma int_of_padded_neg (k : nat) (u : Decimal.uint) :
  u <> Decimal.Nil ->
  int_of (String "-" (zeros k ++ NilEmpty.string_of_uint u)) =
  Some (- Z.of_uint u)%Z.
Proof.
  intros Hu. rewrite zeros_uint.
  pose proof (iter_D0_nonnil k u Hu) as Hk.
  destruct (string_of_uint_nonnil _ Hk) as [E _].
  unfold int_of. rewrite <- E.
  change (String "-" (NilZero.string_of_uint (Nat.iter k Decimal.D0 u)))
    with (NilZero.string_of_int (Decimal.Neg (Nat.iter k Decimal.D0 u))).
  rewrite NilZero.isi by congruence.
  simpl. now rewrite of_uint_zeros.
Qed.

(** Reading back a zero-filled numeral gives the number. *)
Lemma int_of_zfill_str (w : nat) (n : Z) : int_of (zfill w (str n)) = Some n.
Proof.
  unfold zfill. destruct (w <=? String.length (str n))%nat;
    [apply int_of_str|].
  destruct n as [|p|p].
  - change (int_of (zeros (w - 1)
                       ++ NilEmpty.string_of_uint (Decimal.D0 Decimal.Nil))
            = Some 0%Z).
    rewrite int_of_padded by discriminate. reflexivity.
  - pose proof (Unsigned.to_uint_nonnil p) as Hu.
    destruct (string_of_uint_nonnil _ Hu) as [E (c & rest & Ec & Hm & Hp)].
    unfold str. simpl Z.to_int. simpl NilZero.string_of_int.
    rewrite E, Ec, Hm, Hp. simpl orb. cbv iota.
    rewrite <- Ec, int_of_padded by assumption.
    f_equal. exact (DecimalZ.of_to (Z.pos p)).
  - pose proof (Unsigned.to_uint_nonnil p) as Hu.
    destruct (string_of_uint_nonnil _ Hu) as [E _].
    unfold str. simpl Z.to_int. simpl NilZero.string_of_int.
    rewrite E. simpl orb. cbv iota.
    rewrite int_of_padded_neg by assumption.
    f_equal. exact (DecimalZ.of_to (Z.neg p)).
Qed.

Lemma zfill_str_inj (w : nat) (m n : Z) :
  zfill w (str m) = zfill w (str n) -> m = n.
Proof.
  intros H. apply (f_equal int_of) in H.
  rewrite !int_of_zfill_str in H. now injection H.
Qed.

Lemma str_inj (m n : Z) : str m = str n -> m = n.
Proof.
  intros H. apply (f_equal int_of) in H.
  rewrite !int_of_str in H. now injection H.
Qed.

(** Zero-filling keeps the shape: one character, then no minus sign. *)
Lemma zfill_shape (w : nat) (s : string) :
  (exists c rest, s = String c rest /\ dash_free rest = true) ->
  exists c rest, zfill w s = String c rest /\ dash_free rest = true.
Proof.
  intros (c & rest & -> & Hrest). unfold zfill.
  destruct (w <=? String.length (String c rest))%nat; [eauto|].
  destruct (Ascii.eqb c "-" || Ascii.eqb c "+")%bool eqn:Hsign.
  - eexists; eexists; split; [reflexivity|].
    now rewrite dash_free_append, dash_free_zeros.
  - apply orb_false_iff in Hsign. destruct Hsign as [Hm _].
    destruct (w - String.length (String c rest))%nat as [|k]; simpl.
    + eauto.
    + eexists; eexists; split; [reflexivity|].
      rewrite dash_free_append, dash_free_zeros. simpl.
      now rewrite Hm, Hrest.
Qed.

Lemma zfill_str_shape (w : nat) (n : Z) :
  exists c rest, zfill w (str n) = String c rest /\ dash_free rest = true.
Proof.
  apply zfill_shape, str_shape.
Qed.

(** *** Dictionaries *)

Lemma key_eqb_str (x : pyval) (k : string) :
  key_eqb x (PStr k) = true -> x = PStr k.
Proof.
  destruct x; simpl; try discriminate.
  intros H. apply String.eqb_eq in H. now subst.
Qed.

Lemma dict_find_set_same (k : string) (v : pyval) (d : dict) :
  dict_find (PStr k) (dict_set (PStr k) v d) = Some v.
Proof.
  induction d as [|[k' v'] d IH]; simpl.
  - now rewrite String.eqb_refl.
  - destruct (key_eqb k' (PStr k)) eqn:E; simpl; rewrite E; auto.
Qed.

Lemma dict_find_set_other (k k' : string) (v : pyval) (d : dict) :
  k <> k' ->
  dict_find (PStr k) (dict_set (PStr k') v d) = dict_find (PStr k) d.
Proof.
  intros Hne. induction d as [|[x v'] d IH]; simpl.
  - apply String.eqb_neq in Hne. rewrite String.eqb_sym in Hne.
    now rewrite Hne.
  - destruct (key_eqb x (PStr k')) eqn:E; simpl.
    + apply key_eqb_str in E. subst x. simpl.
      apply String.eqb_neq in Hne. rewrite String.eqb_sym in Hne.
      now rewrite Hne.
    + now rewrite IH.
Qed.

Lemma bind_ok {A B : Type} (r : result A) (k : A -> result B) (b : B) :
  bind r k = Ok b -> exists a, r = Ok a /\ k a = Ok b.
Proof.
  destruct r as [a|e]; simpl; [eauto | discriminate].
Qed.

Lemma setitem_ok (o : pyval) (k : string) (v o' : pyval) :
  setitem o k v = Ok o' ->
  exists d, o = PDict d /\ o' = PDict (dict_set (PStr k) v d).
Proof.
  destruct o; simpl; try discriminate. intros [= <-]. eauto.
Qed.

Lemma getitem_setitem_same (o : pyval) (k : string) (v o' : pyval) :
  setitem o k v = Ok o' -> getitem o' k = Ok v.
Proof.
  intros H. apply setitem_ok in H. destruct H as (d & -> & ->).
  simpl. now rewrite dict_find_set_same.
Qed.

Lemma getitem_setitem_other (o : pyval) (k k' : string) (v o' : pyval) :
  k <> k' -> setitem o k' v = Ok o' -> getitem o' k = getitem o k.
Proof.
  intros Hne H. apply setitem_ok in H. destruct H as (d & -> & ->).
  simpl. now rewrite dict_find_set_other.
Qed.

Lemma contains_setitem_same (o : pyval) (k : string) (v o' : pyval) :
  setitem o k v = Ok o' -> contains k o' = Ok true.
Proof.
  intros H. apply setitem_ok in H. destruct H as (d & -> & ->).
  simpl. now rewrite dict_find_set_same.
Qed.

(** What [dict.update] accepts: a non-empty string is rejected at its
    first character, which is not a pair. *)
Lemma dict_update_ok (d : dict) (v : pyval) (d' : dict) :
  dict_update d v = Ok d' ->
  match v with
  | PDict _ | PList _ => True
  | PStr s => s = ""
  | PNone | PBool _ | PInt _ | PFloat _ => False
  end.
Proof.
  destruct v as [| | | |s| |]; simpl; try discriminate; auto.
  destruct s as [|c s]; [reflexivity|].
  unfold chars. simpl. discriminate.
Qed.

(** *** Blanks *)

Lemma append_nil_r (a : string) : a ++ "" = a.
Proof.
  induction a as [|c a IH]; simpl; [reflexivity | now rewrite IH].
Qed.

Lemma space_free_uint (u : Decimal.uint) :
  char_free " " (NilEmpty.string_of_uint u) = true.
Proof.
  induction u; simpl; auto.
Qed.

Lemma space_free_str (n : Z) : char_free " " (str n) = true.
Proof.
  unfold str. destruct n as [|p|p]; simpl; [reflexivity| |];
    destruct (string_of_uint_nonnil _ (Unsigned.to_uint_nonnil p)) as [-> _];
    apply space_free_uint.
Qed.

End PyFacts.

(* ================================================================== *)
(** ** Properties of the benchmark driver *)
(* ================================================================== *)

Module BenchmarkSpec.
Import Py PyFacts Benchmark.

(** *** The loops as a Cartesian product *)

Lemma fold_left_appending {A B : Type} (body : list B -> A -> list B)
      (chunk : A -> list B) :
  (forall acc x, body acc x = (acc ++ chunk x)%list) ->
  forall l acc, fold_left body l acc = (acc ++ flat_map chunk l)%list.
Proof.
  intros Hbody l; induction l as [|x l IH]; intros acc; simpl.
  - now rewrite app_nil_r.
  - rewrite IH, Hbody, <- app_assoc. reflexivity.
Qed.

Lemma flat_map_singleton {A B : Type} (f : A -> B) (l : list A) :
  flat_map (fun x => [f x]) l = map f l.
Proof.
  induction l as [|x l IH]; simpl; [reflexivity | now rewrite IH].
Qed.

Lemma map_list_prod {A B C : Type} (f : A * B -> C) (l : list A)
      (l' : list B) :
  map f (list_prod l l') = flat_map (fun x => map (fun y => f (x, y)) l') l.
Proof.
  induction l as [|x l IH]; simpl; [reflexivity|].
  now rewrite map_app, map_map, IH.
Qed.

Lemma commands_nested (args : Args) :
  commands args =
  flat_map (fun seed =>
    flat_map (fun env_id =>
      map (fun a => command args seed env_id a) (algo args))
      (env_ids args))
    (range (num_seeds args)).
Proof.
  unfold commands.
  rewrite (fold_left_appending _
    (fun seed => flat_map (fun env_id =>
       map (fun a => command args seed env_id a) (algo args))
       (env_ids args))).
  - reflexivity.
  - intros acc seed.
    rewrite (fold_left_appending _
      (fun env_id => map (fun a => command args seed env_id a) (algo args))).
    + reflexivity.
    + intros acc' env_id.
      rewrite (fold_left_appending _
        (fun a => [command args seed env_id a])).
      * now rewrite flat_map_singleton.
      * reflexivity.
Qed.

Lemma commands_product (args : Args) :
  commands args = map (command_of args) (descriptors args).
Proof.
  rewrite commands_nested. unfold descriptors.
  rewrite map_list_prod.
  apply flat_map_ext; intros seed. cbv beta.
  rewrite map_list_prod. reflexivity.
Qed.

Lemma length_range (n : Z) : (0 <= n)%Z -> Z.of_nat (length (range n)) = n.
Proof.
  intros Hn. unfold range. rewrite length_map, length_seq. lia.
Qed.

Lemma in_range (n i : Z) : In i (range n) <-> (0 <= i < n)%Z.
Proof.
  unfold range. rewrite in_map_iff. split.
  - intros [k [<- Hk]]. apply in_seq in Hk. lia.
  - intros Hi. exists (Z.to_nat i). split; [lia|]. apply in_seq. lia.
Qed.

Lemma in_commands (args : Args) (c : string) :
  In c (commands args) <->
  exists i env_id a,
    (0 <= i < num_seeds args)%Z /\ In env_id (env_ids args) /\
    In a (algo args) /\ c = command args i env_id a.
Proof.
  rewrite commands_product, in_map_iff. unfold descriptors, command_of. split.
  - intros [[i [env_id a]] [<- Hin]].
    apply in_prod_iff in Hin. destruct Hin as [Hi Hin].
    apply in_prod_iff in Hin. destruct Hin as [He Ha].
    apply in_range in Hi. exists i, env_id, a. simpl. auto.
  - intros (i & env_id & a & Hi & He & Ha & ->).
    exists (i, (env_id, a)). split; [reflexivity|].
    apply in_prod_iff. split; [now apply in_range|].
    now apply in_prod_iff.
Qed.

(** C3. For every non-negative [num_seeds], every list of environment ids
    and every list of algorithm names, the driver generates exactly
    [num_seeds * len(env_ids) * len(algo)] commands: the list of commands is
    the image, element by element and in order, of the Cartesian product of
    the seed indices, the environment ids and the algorithm names. *)
Theorem commands_one_per_descriptor (args : Args) :
  (0 <= num_seeds args)%Z ->
  commands args = map (command_of args) (descriptors args) /\
  length (descriptors args) = length (commands args) /\
  Z.of_nat (length (commands args)) =
    (num_seeds args * Z.of_nat (length (env_ids args))
       * Z.of_nat (length (algo args)))%Z.
Proof.
  intros Hn. split; [apply commands_product|].
  rewrite commands_product, length_map. split; [reflexivity|].
  unfold descriptors. rewrite !length_prod.
  rewrite !Nat2Z.inj_mul, length_range by assumption. lia.
Qed.

Lemma commands_one_per_descriptor_witness :
  commands sample_args = map (command_of sample_args) (descriptors sample_args)
  /\ length (descriptors sample_args) = length (commands sample_args)
  /\ Z.of_nat (length (commands sample_args)) = (2 * 2 * 3)%Z.
Proof.
  apply (commands_one_per_descriptor sample_args). simpl. lia.
Defined.

(** *** The shape of one command *)

Lemma command_text (args : Args) (seed : Z) (env_id a : string) :
  command args seed env_id a =
  "python " ++ a ++ ".py --env-id " ++ env_id ++ " --seed "
    ++ str (start_seed args + 1000 * seed)
    ++ " --write-terminal False --log-dir ../runs --experiment "
    ++ experiment args.
Proof.
  unfold command, command_parts, join, log_dir. simpl.
  rewrite !append_assoc. reflexivity.
Qed.

(** C4. For every start seed and every seed index [i] with
    [0 <= i < num_seeds], each command generated for seed index [i] belongs
    to the generated list and carries the exact value
    [start_seed + 1000 * i], printed in decimal, as the argument that
    follows the [--seed] flag: in the list of parts that is joined, and in
    the joined text. *)
Theorem seed_follows_flag (args : Args) (i : Z) (env_id a : string) :
  (0 <= i < num_seeds args)%Z ->
  In env_id (env_ids args) -> In a (algo args) ->
  In (command args i env_id a) (commands args) /\
  nth_error (command_parts args i env_id a) 3 = Some "--seed" /\
  nth_error (command_parts args i env_id a) 4 =
    Some (str (start_seed args + 1000 * i)) /\
  command args i env_id a =
    ("python " ++ a ++ ".py --env-id " ++ env_id)
      ++ " --seed " ++ str (start_seed args + 1000 * i)
      ++ " --write-terminal False --log-dir ../runs --experiment "
      ++ experiment args.
Proof.
  intros Hi He Ha. repeat split.
  - apply in_commands. exists i, env_id, a. auto.
  - rewrite command_text, !append_assoc. reflexivity.
Qed.

Lemma seed_follows_flag_witness :
  In (command sample_args 1 "SafetyAntVelocity-v1" "cup")
     (commands sample_args) /\
  nth_error (command_parts sample_args 1 "SafetyAntVelocity-v1" "cup") 3 =
    Some "--seed" /\
  nth_error (command_parts sample_args 1 "SafetyAntVelocity-v1" "cup") 4 =
    Some "1007" /\
  command sample_args 1 "SafetyAntVelocity-v1" "cup" =
    "python cup.py --env-id SafetyAntVelocity-v1 --seed 1007 --write-terminal False --log-dir ../runs --experiment bench".
Proof.
  apply (seed_follows_flag sample_args 1 "SafetyAntVelocity-v1" "cup").
  - simpl. lia.
  - simpl. auto.
  - simpl. auto.
Defined.

(** *** The flag contract *)

Lemma str_not_flag (n : Z) : ~ In (str n) flags.
Proof.
  destruct (str_shape n) as (c & rest & E & Hrest). rewrite E.
  intros H. simpl in H.
  repeat (destruct H as [H|H]; [injection H as _ H; subst rest;
                                discriminate Hrest|]).
  exact H.
Qed.

Lemma entry_point_not_flag (a : string) : ~ In ("python " ++ a ++ ".py") flags.
Proof.
  simpl. intros H.
  repeat (destruct H as [H|H]; [discriminate H|]). exact H.
Qed.

Lemma occurrences_cons (flag x : string) (parts : list string) :
  occurrences flag (x :: parts) =
  ((if String.eqb x flag then 1 else 0) + occurrences flag parts)%nat.
Proof.
  unfold occurrences. simpl.
  destruct (string_dec x flag) as [->|Hne].
  - now rewrite String.eqb_refl.
  - apply String.eqb_neq in Hne. now rewrite Hne.
Qed.

Lemma eqb_not_flag (x flag : string) :
  ~ In x flags -> In flag flags -> String.eqb x flag = false.
Proof.
  intros Hx Hflag. apply String.eqb_neq. intros ->. contradiction.
Qed.

(** C8, claim as stated, refuted: with an experiment named [--seed] the one
    command generated has [--seed] among its parts twice, the second time
    followed by nothing; the same holds of the words of its text. *)
Lemma flag_contract_counterexample :
  commands flag_named_args =
    [command flag_named_args 0 "SafetyPointGoal1-v0" "cpo"] /\
  occurrences "--seed"
    (command_parts flag_named_args 0 "SafetyPointGoal1-v0" "cpo") = 2%nat /\
  occurrences "--seed"
    (split_spaces "" (command flag_named_args 0 "SafetyPointGoal1-v0" "cpo"))
    = 2%nat /\
  ~ (forall flag, In flag flags ->
       occurrences flag
         (command_parts flag_named_args 0 "SafetyPointGoal1-v0" "cpo")
       = 1%nat).
Proof.
  split; [reflexivity|]. split; [reflexivity|]. split; [reflexivity|].
  intros H. specialize (H "--seed" (or_intror (or_introl eq_refl))).
  vm_compute in H. discriminate H.
Qed.

(** The words of a text: what lies between its blanks. *)

Lemma split_spaces_append (cur a b : string) :
  split_spaces cur (a ++ String " " b) =
  (split_spaces cur a ++ split_spaces "" b)%list.
Proof.
  revert cur. induction a as [|c a IH]; intros cur; simpl.
  - reflexivity.
  - destruct (Ascii.eqb c " "); simpl; now rewrite IH.
Qed.

Lemma split_spaces_word (cur s : string) :
  char_free " " s = true -> split_spaces cur s = [cur ++ s].
Proof.
  revert cur. induction s as [|c s IH]; intros cur H; simpl in *.
  - now rewrite append_nil_r.
  - apply andb_true_iff in H. destruct H as [Hc Hs].
    apply negb_true_iff in Hc. rewrite Hc, (IH _ Hs), append_assoc.
    reflexivity.
Qed.

Lemma occurrences_app (flag : string) (l l' : list string) :
  occurrences flag (l ++ l') =
  (occurrences flag l + occurrences flag l')%nat.
Proof.
  unfold occurrences. apply count_occ_app.
Qed.

Lemma occurrences_none (flag : string) (l : list string) :
  ~ In flag l -> occurrences flag l = 0%nat.
Proof.
  unfold occurrences. apply count_occ_not_In.
Qed.

(** No flag ends in [.py]. *)
Lemma py_word_not_flag (cur : string) : ~ In (cur ++ ".py") flags.
Proof.
  simpl. intros H.
  repeat (destruct H as [H|H];
          [repeat (destruct cur as [|? cur]; simpl in H;
                   [discriminate H
                   | try discriminate H; injection H as _ H])|]).
  exact H.
Qed.

(** Appending [.py] to a text adds no flag to its words. *)
Lemma py_words (flag cur a : string) :
  In flag flags ->
  (occurrences flag (split_spaces cur (a ++ ".py"))
     <= occurrences flag (split_spaces cur a))%nat.
Proof.
  intros Hflag. revert cur. induction a as [|c a IH]; intros cur.
  - change ("" ++ ".py") with ".py".
    rewrite (split_spaces_word cur ".py" eq_refl), occurrences_cons.
    rewrite (eqb_not_flag _ flag (py_word_not_flag cur) Hflag). simpl. lia.
  - simpl. destruct (Ascii.eqb c " ").
    + rewrite !occurrences_cons. specialize (IH ""). lia.
    + apply IH.
Qed.

Lemma command_words (args : Args) (seed : Z) (env_id a : string) :
  split_spaces "" (command args seed env_id a) =
  ("python"
     :: split_spaces "" (a ++ ".py")
     ++ "--env-id"
     :: split_spaces "" env_id
     ++ "--seed"
     :: str (start_seed args + 1000 * seed)
     :: "--write-terminal" :: "False" :: "--log-dir" :: "../runs"
     :: "--experiment"
     :: split_spaces "" (experiment args))%list.
Proof.
  assert (E : command args seed env_id a =
    "python" ++ String " " ((a ++ ".py") ++ String " "
      ("--env-id" ++ String " " (env_id ++ String " "
      ("--seed" ++ String " "
      (str (start_seed args + 1000 * seed) ++ String " "
      ("--write-terminal" ++ String " " ("False" ++ String " "
      ("--log-dir" ++ String " " ("../runs" ++ String " "
      ("--experiment" ++ String " " (experiment args)))))))))))).
  { rewrite command_text, !append_assoc. reflexivity. }
  rewrite E, !split_spaces_append.
  rewrite (split_spaces_word "" (str _) (space_free_str _)).
  reflexivity.
Qed.

(** C8, amended. Every generated command is the space-joined list of
    eleven parts: the entry point [python {algo}.py], then the five flags
    [--env-id], [--seed], [--write-terminal], [--log-dir], [--experiment] in
    this order, each immediately followed by its value.  Whenever no word
    of the environment id, of the algorithm name or of the experiment name
    is one of the five flag names, each flag occurs exactly once among the
    words of the command text. *)
Theorem flag_contract (args : Args) (seed : Z) (env_id a : string) :
  (forall flag, In flag flags -> ~ In flag (split_spaces "" env_id)) ->
  (forall flag, In flag flags -> ~ In flag (split_spaces "" a)) ->
  (forall flag, In flag flags ->
                ~ In flag (split_spaces "" (experiment args))) ->
  command args seed env_id a = join " " (command_parts args seed env_id a) /\
  command_parts args seed env_id a =
    ("python " ++ a ++ ".py")
      :: flat_map (fun fv => [fst fv; snd fv])
           (combine flags
              [env_id; str (start_seed args + 1000 * seed); "False";
               "../runs"; experiment args]) /\
  forall flag, In flag flags ->
    occurrences flag (split_spaces "" (command args seed env_id a)) = 1%nat.
Proof.
  intros Henv Halgo Hexp. split; [reflexivity|]. split; [reflexivity|].
  intros flag Hflag. rewrite command_words.
  repeat (rewrite occurrences_cons || rewrite occurrences_app).
  pose proof (py_words flag "" a Hflag) as Hpy.
  rewrite (occurrences_none _ _ (Halgo flag Hflag)) in Hpy.
  rewrite (occurrences_none _ _ (Henv flag Hflag)).
  rewrite (occurrences_none _ _ (Hexp flag Hflag)).
  rewrite (eqb_not_flag _ flag (str_not_flag _) Hflag).
  assert (Hzero : occurrences flag (split_spaces "" (a ++ ".py")) = 0%nat)
    by lia.
  rewrite Hzero. simpl in Hflag.
  repeat (destruct Hflag as [<-|Hflag]; [reflexivity|]).
  contradiction.
Qed.

Lemma flag_contract_witness :
  command sample_args 0 "SafetyPointGoal1-v0" "cpo" =
    join " " (command_parts sample_args 0 "SafetyPointGoal1-v0" "cpo") /\
  command_parts sample_args 0 "SafetyPointGoal1-v0" "cpo" =
    ["python cpo.py"; "--env-id"; "SafetyPointGoal1-v0"; "--seed"; "7";
     "--write-terminal"; "False"; "--log-dir"; "../runs"; "--experiment";
     "bench"] /\
  forall flag, In flag flags ->
    occurrences flag
      (split_spaces "" (command sample_args 0 "SafetyPointGoal1-v0" "cpo"))
    = 1%nat.
Proof.
  apply (flag_contract sample_args 0 "SafetyPointGoal1-v0" "cpo");
    simpl; intros flag Hflag [H|[]]; subst flag;
    repeat (destruct Hflag as [Hflag|Hflag]; [discriminate Hflag|]);
    exact Hflag.
Defined.

(** *** Running the commands *)

Lemma commands_with_workers (w : Z) (args : Args) :
  commands (with_workers w args) = commands args.
Proof. reflexivity. Qed.

Lemma jobs_submitted shlex_split spawn (args : Args) :
  (0 < workers args)%Z ->
  jobs (main shlex_split spawn args) =
    map (fun c => (c, run_experiment shlex_split spawn c)) (commands args)
  /\ printed (main shlex_split spawn args) = header :: commands args.
Proof.
  intros Hw. unfold main.
  destruct (Z.gtb_spec (workers args) 0) as [_|Hle]; [|lia].
  split; reflexivity.
Qed.

(** C5. When the workers flag is 0 the driver submits no job and starts no
    subprocess, and prints every generated command; the generated commands
    and the lines printed for them are the same as with a positive worker
    count, the run with 0 workers only adding its closing notice. *)
Theorem zero_workers_only_print shlex_split spawn (args : Args) (w : Z) :
  workers args = 0%Z -> (0 < w)%Z ->
  jobs (main shlex_split spawn args) = [] /\
  subprocesses (main shlex_split spawn args) = [] /\
  (forall c, In c (commands args) ->
             In c (printed (main shlex_split spawn args))) /\
  commands (with_workers w args) = commands args /\
  printed (main shlex_split spawn (with_workers w args)) =
    header :: commands args /\
  printed (main shlex_split spawn args) =
    (printed (main shlex_split spawn (with_workers w args))
       ++ [not_running])%list.
Proof.
  intros H0 Hw.
  destruct (jobs_submitted shlex_split spawn (with_workers w args) Hw)
    as [_ Hlive].
  rewrite Hlive, commands_with_workers.
  unfold main, subprocesses. rewrite H0. simpl.
  repeat split.
  intros c Hc. right. apply in_or_app. now left.
Qed.

Lemma zero_workers_only_print_witness :
  jobs (main sample_split sample_spawn_failing (with_workers 0 sample_args))
    = [] /\
  subprocesses
    (main sample_split sample_spawn_failing (with_workers 0 sample_args))
    = [] /\
  (forall c, In c (commands (with_workers 0 sample_args)) ->
     In c (printed (main sample_split sample_spawn_failing
                      (with_workers 0 sample_args)))) /\
  commands (with_workers 4 (with_workers 0 sample_args)) =
    commands (with_workers 0 sample_args) /\
  printed (main sample_split sample_spawn_failing
             (with_workers 4 (with_workers 0 sample_args))) =
    header :: commands (with_workers 0 sample_args) /\
  printed (main sample_split sample_spawn_failing
             (with_workers 0 sample_args)) =
    (printed (main sample_split sample_spawn_failing
                (with_workers 4 (with_workers 0 sample_args)))
       ++ [not_running])%list.
Proof.
  apply (zero_workers_only_print sample_split sample_spawn_failing
           (with_workers 0 sample_args) 4).
  - reflexivity.
  - lia.
Defined.

(** What a worker does on a non-zero return code: the call of
    [run_experiment] prints its [running] line, starts the subprocess once,
    waits for it and ends by raising [AssertionError] out of the call;
    nothing follows the wait.  The command is submitted exactly as often as
    it was generated, so it is not run again, and the main thread prints
    the header and the commands only, whatever the return codes. *)
Theorem nonzero_exit_raises shlex_split spawn (args : Args)
        (command : string) (command_list : list string) (return_code : Z) :
  (0 < workers args)%Z ->
  In command (commands args) ->
  shlex_split command = Ok command_list ->
  spawn command_list = Ok return_code ->
  return_code <> 0%Z ->
  run_experiment shlex_split spawn command =
    ([Print ("running " ++ command); Popen command_list; Wait return_code],
     Raise AssertionError) /\
  In (command, run_experiment shlex_split spawn command)
     (jobs (main shlex_split spawn args)) /\
  occurrences command (map fst (jobs (main shlex_split spawn args))) =
    occurrences command (commands args) /\
  printed (main shlex_split spawn args) = header :: commands args.
Proof.
  intros Hw Hin Hsplit Hspawn Hcode.
  destruct (jobs_submitted shlex_split spawn args Hw) as [Hjobs Hprinted].
  rewrite Hjobs, Hprinted. repeat split.
  - unfold run_experiment. rewrite Hsplit, Hspawn.
    apply Z.eqb_neq in Hcode. now rewrite Hcode.
  - apply in_map_iff. exists command. auto.
  - rewrite map_map. simpl. now rewrite map_id.
Qed.

Lemma nonzero_exit_raises_witness :
  run_experiment sample_split sample_spawn_failing
    (command sample_args 0 "SafetyPointGoal1-v0" "cpo") =
    ([Print ("running " ++ command sample_args 0 "SafetyPointGoal1-v0" "cpo");
      Popen ["python"; "cpo.py"; "--env-id"; "SafetyPointGoal1-v0"; "--seed";
             "7"; "--write-terminal"; "False"; "--log-dir"; "../runs";
             "--experiment"; "bench"];
      Wait 1],
     Raise AssertionError) /\
  In (command sample_args 0 "SafetyPointGoal1-v0" "cpo",
      run_experiment sample_split sample_spawn_failing
        (command sample_args 0 "SafetyPointGoal1-v0" "cpo"))
     (jobs (main sample_split sample_spawn_failing sample_args)) /\
  occurrences (command sample_args 0 "SafetyPointGoal1-v0" "cpo")
    (map fst (jobs (main sample_split sample_spawn_failing sample_args))) =
    occurrences (command sample_args 0 "SafetyPointGoal1-v0" "cpo")
      (commands sample_args) /\
  printed (main sample_split sample_spawn_failing sample_args) =
    header :: commands sample_args.
Proof.
  apply (nonzero_exit_raises sample_split sample_spawn_failing sample_args
           (command sample_args 0 "SafetyPointGoal1-v0" "cpo")
           ["python"; "cpo.py"; "--env-id"; "SafetyPointGoal1-v0"; "--seed";
            "7"; "--write-terminal"; "False"; "--log-dir"; "../runs";
            "--experiment"; "bench"] 1).
  - reflexivity.
  - vm_compute. auto.
  - reflexivity.
  - reflexivity.
  - discriminate.
Defined.

(** The script never ends in an exception of its own, whatever the jobs
    did. *)
Lemma script_ends_normally shlex_split spawn (args : Args) :
  script_ends shlex_split spawn args = Ok tt.
Proof.
  unfold script_ends. destruct (workers args >? 0)%Z; [|reflexivity].
  induction (commands args) as [|c l IH]; simpl; [reflexivity | exact IH].
Qed.

(** C1, the code at a failing input.  With four workers and every training
    script exiting with return code 1, each of the twelve jobs ends in
    [AssertionError], and [Future.result()] would raise it again for each
    of them; but the script drops the futures: it ends normally and its
    main thread prints exactly what it prints when every script exits with
    0.  The failed assertion is neither unhandled nor reported. *)
Theorem nonzero_exit_swallowed :
  length (jobs (main sample_split sample_spawn_failing sample_args))
    = 12%nat /\
  Forall (fun job => snd (snd job) = Raise AssertionError)
         (jobs (main sample_split sample_spawn_failing sample_args)) /\
  Forall (fun c =>
            future_result
              (submit (run_experiment sample_split sample_spawn_failing c))
            = Raise AssertionError)
         (commands sample_args) /\
  script_ends sample_split sample_spawn_failing sample_args = Ok tt /\
  printed (main sample_split sample_spawn_failing sample_args) =
    printed (main sample_split sample_spawn_ok sample_args).
Proof.
  split; [reflexivity|].
  split; [vm_compute; repeat constructor|].
  split; [vm_compute; repeat constructor|].
  split; reflexivity.
Qed.

End BenchmarkSpec.

(* ================================================================== *)
(** ** Properties of the config builder *)
(* ================================================================== *)

Module ConfigSpec.
Import Py PyFacts Config.

(** Splitting a successful sequence of calls into its steps. *)
Ltac steps H :=
  repeat match type of H with
         | bind _ _ = Ok _ =>
             let x := fresh "x" in
             let Hx := fresh "Hx" in
             apply bind_ok in H; destruct H as (x & Hx & H)
         end.

Lemma in_list_spec (x : string) (names : list string) :
  in_list x names = true <-> In x names.
Proof.
  unfold in_list. rewrite existsb_exists. split.
  - intros (y & Hy & E). apply String.eqb_eq in E. now subst.
  - intros H. exists x. split; [assumption | apply String.eqb_refl].
Qed.

Lemma multi_agent_args_ok (w : World) (algo : string) (args : Namespace)
      (cfg_env cfg_train : pyval) :
  multi_agent_args w algo = Ok (args, cfg_env, cfg_train) ->
  parsed_args w = Ok args /\
  build_cfg_train w args algo = Ok cfg_train /\
  build_cfg_env w args = Ok cfg_env.
Proof.
  unfold multi_agent_args. intros H. steps H.
  injection H as -> -> ->. auto.
Qed.

(** Without a ShadowHand task the first parse is kept. *)
Lemma parsed_args_plain (w : World) :
  ~ In (task (parse_args w)) shadow_tasks -> parsed_args w = Ok (parse_args w).
Proof.
  intros H. unfold parsed_args.
  destruct (in_list (task (parse_args w)) shadow_tasks) eqn:E;
    [|reflexivity].
  apply in_list_spec in E. contradiction.
Qed.

(** *** Unknown tasks *)

(** C2. For every parsed task name other than "ShadowHandOver",
    "ShadowHandCatchUnderarm" and "MujocoVelocity", [multi_agent_args]
    raises and returns no configuration; when the training configuration
    itself can be built, the exception is the one of [warn_task_name]. *)
Theorem unknown_task_raises (w : World) (algo : string) :
  ~ In (task (parse_args w))
       [ShadowHandOver; ShadowHandCatchUnderarm; MujocoVelocity] ->
  raises (multi_agent_args w algo) /\
  ~ returns (multi_agent_args w algo) /\
  (returns (build_cfg_train w (parse_args w) algo) ->
   multi_agent_args w algo = Raise (Exception "Unrecognized task!")).
Proof.
  intros Hunknown.
  assert (Hplain : ~ In (task (parse_args w)) shadow_tasks).
  { intros H. apply Hunknown. simpl in *. tauto. }
  assert (Hmujoco : String.eqb (task (parse_args w)) MujocoVelocity = false).
  { apply String.eqb_neq. intros E. apply Hunknown. simpl. auto. }
  assert (Henv : build_cfg_env w (parse_args w) = warn_task_name).
  { unfold build_cfg_env.
    destruct (in_list (task (parse_args w)) shadow_tasks) eqn:E.
    - apply in_list_spec in E. contradiction.
    - now rewrite Hmujoco. }
  unfold multi_agent_args. rewrite (parsed_args_plain w Hplain). simpl.
  destruct (build_cfg_train w (parse_args w) algo) as [cfg_train|e] eqn:Et;
    simpl; rewrite ?Henv; simpl.
  - split; [eexists; reflexivity|].
    split; [intros [r Hr]; discriminate Hr | reflexivity].
  - split; [eexists; reflexivity|].
    split; [intros [r Hr]; discriminate Hr|].
    intros [r Hr]. discriminate Hr.
Qed.

Lemma unknown_task_raises_witness :
  let w := mujoco_world (with_task "ShadowHandUnder" default_namespace)
             "2023-08-14-09-30-00" sample_cfg_train in
  raises (multi_agent_args w "mappo") /\
  ~ returns (multi_agent_args w "mappo") /\
  (returns (build_cfg_train w (parse_args w) "mappo") ->
   multi_agent_args w "mappo" = Raise (Exception "Unrecognized task!")).
Proof.
  apply (unknown_task_raises
           (mujoco_world (with_task "ShadowHandUnder" default_namespace)
              "2023-08-14-09-30-00" sample_cfg_train) "mappo").
  simpl. intros H.
  repeat (destruct H as [H|H]; [discriminate H|]). exact H.
Defined.

(** *** The log directory *)

Lemma overlay_cfg_train_ok (w : World) (args : Namespace) (algo : string)
      (cfg cfg_train : pyval) :
  overlay_cfg_train w args algo cfg = Ok cfg_train ->
  getitem cfg_train "log_dir" =
    Ok (PStr (log_dir_of args algo (strftime w))).
Proof.
  unfold overlay_cfg_train. intros H. steps H.
  now apply getitem_setitem_same in H.
Qed.

Lemma log_dir_of_nonempty (args : Namespace) (algo now : string) :
  log_dir_of args algo now <> "".
Proof.
  unfold log_dir_of. simpl. discriminate.
Qed.

(** The seed and the moment can be read back from a log directory, given
    the experiment, the environment name and the algorithm. *)
Lemma log_dir_of_inj (a1 a2 : Namespace) (algo now1 now2 : string) :
  experiment a1 = experiment a2 ->
  env_name_of a1 = env_name_of a2 ->
  log_dir_of a1 algo now1 = log_dir_of a2 algo now2 ->
  seed a1 = seed a2 /\ now1 = now2.
Proof.
  intros Hexp Henv. unfold log_dir_of, join. simpl String.concat.
  rewrite Hexp, Henv. intros H.
  repeat apply append_inv_head in H. injection H as H.
  destruct (zfill_str_shape 3 (seed a1)) as (c1 & r1 & E1 & H1).
  destruct (zfill_str_shape 3 (seed a2)) as (c2 & r2 & E2 & H2).
  rewrite E1, E2 in H. simpl in H. injection H as Hc H.
  destruct (split_at_dash r1 r2 now1 now2 H1 H2 H) as [Hr Hnow].
  split; [|assumption].
  apply (zfill_str_inj 3). rewrite E1, E2. now subst.
Qed.

(** C6. On every input on which [multi_agent_args] returns, the returned
    [cfg_train] holds under [log_dir] a non-empty string, and two calls for
    the same algorithm, experiment name and environment name whose seeds or
    whose timestamps differ return different [log_dir] strings. *)
Theorem log_dir_nonempty_and_unique (w1 w2 : World) (algo : string)
        (args1 args2 : Namespace) (cfg_env1 cfg_env2 : pyval)
        (cfg_train1 cfg_train2 : pyval) :
  multi_agent_args w1 algo = Ok (args1, cfg_env1, cfg_train1) ->
  multi_agent_args w2 algo = Ok (args2, cfg_env2, cfg_train2) ->
  exists dir1 dir2,
    getitem cfg_train1 "log_dir" = Ok (PStr dir1) /\
    getitem cfg_train2 "log_dir" = Ok (PStr dir2) /\
    dir1 <> "" /\ dir2 <> "" /\
    (experiment args1 = experiment args2 ->
     env_name_of args1 = env_name_of args2 ->
     seed args1 <> seed args2 \/ strftime w1 <> strftime w2 ->
     dir1 <> dir2).
Proof.
  intros R1 R2.
  apply multi_agent_args_ok in R1. destruct R1 as (_ & T1 & _).
  apply multi_agent_args_ok in R2. destruct R2 as (_ & T2 & _).
  unfold build_cfg_train in T1, T2. steps T1. steps T2.
  apply overlay_cfg_train_ok in T1, T2.
  exists (log_dir_of args1 algo (strftime w1)),
         (log_dir_of args2 algo (strftime w2)).
  repeat split; auto using log_dir_of_nonempty.
  intros Hexp Henv Hdiff E.
  destruct (log_dir_of_inj _ _ _ _ _ Hexp Henv E) as [Hseed Hnow].
  destruct Hdiff; contradiction.
Qed.

Lemma log_dir_nonempty_and_unique_witness :
  exists args1 args2 cfg_env1 cfg_env2 cfg_train1 cfg_train2,
    multi_agent_args
      (mujoco_world default_namespace "2023-08-14-09-30-00" sample_cfg_train)
      "mappo" = Ok (args1, cfg_env1, cfg_train1) /\
    multi_agent_args
      (mujoco_world (with_seed 1000 default_namespace) "2023-08-14-09-30-00"
         sample_cfg_train)
      "mappo" = Ok (args2, cfg_env2, cfg_train2) /\
    exists dir1 dir2,
      getitem cfg_train1 "log_dir" = Ok (PStr dir1) /\
      getitem cfg_train2 "log_dir" = Ok (PStr dir2) /\
      dir1 <> "" /\ dir2 <> "" /\
      (experiment args1 = experiment args2 ->
       env_name_of args1 = env_name_of args2 ->
       seed args1 <> seed args2 \/
       "2023-08-14-09-30-00" <> "2023-08-14-09-30-00" ->
       dir1 <> dir2).
Proof.
  do 6 eexists.
  split; [vm_compute; reflexivity|].
  split; [vm_compute; reflexivity|].
  apply (log_dir_nonempty_and_unique
           (mujoco_world default_namespace "2023-08-14-09-30-00"
              sample_cfg_train)
           (mujoco_world (with_seed 1000 default_namespace)
              "2023-08-14-09-30-00" sample_cfg_train)
           "mappo" _ _ (PDict []) (PDict [])); vm_compute; reflexivity.
Defined.

(** *** The environment configuration of the ShadowHand tasks *)

Lemma build_cfg_env_shadow (w : World) (args : Namespace) :
  In (task args) shadow_tasks -> build_cfg_env w args = load_cfg_env w args.
Proof.
  intros H. apply in_list_spec in H. unfold build_cfg_env. now rewrite H.
Qed.

(** What a successful [load_cfg_env] has done. *)
Lemma load_cfg_env_ok (w : World) (args : Namespace) (cfg_env : pyval) :
  load_cfg_env w args = Ok cfg_env ->
  exists name loaded named,
    lookup (task args) config_map = Ok name /\
    yaml_load w (cfg_env_file w name) = Ok loaded /\
    setitem loaded "name" (PStr (task args)) = Ok named /\
    ( (contains "task" named = Ok false /\
       setitem named "task" (PDict [(PStr "randomize", PBool false)])
         = Ok cfg_env)
      \/
      (exists sub value sub',
         getitem named "task" = Ok sub /\
         setitem sub "randomize" value = Ok sub' /\
         setitem named "task" sub' = Ok cfg_env /\
         ( (contains "randomize" sub = Ok false /\
            randomize args = Some value)
           \/
           (contains "randomize" sub = Ok true /\ value = PBool false) )) ).
Proof.
  unfold load_cfg_env.
  destruct (lookup (task args) config_map) as [name|] eqn:Hname;
    simpl; [|discriminate].
  destruct (yaml_load w (cfg_env_file w name)) as [loaded|] eqn:Hload;
    simpl; [|discriminate].
  destruct (setitem loaded "name" (PStr (task args))) as [named|] eqn:Hnamed;
    simpl; [|discriminate].
  intros H. exists name, loaded, named.
  repeat (split; [first [reflexivity | assumption]|]).
  destruct (contains "task" named) as [[|]|] eqn:Htask;
    simpl in H; [| |discriminate].
  - right.
    destruct (getitem named "task") as [sub|] eqn:Hsub;
      simpl in H; [|discriminate].
    destruct (contains "randomize" sub) as [[|]|] eqn:Hflag;
      simpl in H; [| |discriminate].
    + destruct (setitem sub "randomize" (PBool false)) as [sub'|] eqn:Hset;
        simpl in H; [|discriminate].
      exists sub, (PBool false), sub'. auto 6.
    + destruct (randomize args) as [value|] eqn:Hattr;
        simpl in H; [|discriminate].
      destruct (setitem sub "randomize" value) as [sub'|] eqn:Hset;
        simpl in H; [|discriminate].
      exists sub, value, sub'. auto 6.
  - left. auto.
Qed.

Lemma getitem_contains (o : pyval) (k : string) (v : pyval) :
  getitem o k = Ok v -> contains k o = Ok true.
Proof.
  destruct o; simpl; try discriminate.
  destruct (dict_find (PStr k) entries); [reflexivity | discriminate].
Qed.

(** What a return tells for the two legacy tasks "ShadowHandOver" and
    "ShadowHandCatchUnderarm": [multi_agent_args] has loaded a second YAML
    file, the one [config_map] names for the task; the task sub-mapping of
    the returned [cfg_env] has the [randomize] key; and when the loaded
    sub-mapping lacked it, the parsed flags did carry a [randomize]
    attribute, whose value the key was given. *)
Theorem randomize_filled_in (w : World) (algo : string) (args : Namespace)
        (cfg_env cfg_train : pyval) :
  multi_agent_args w algo = Ok (args, cfg_env, cfg_train) ->
  In (task args) shadow_tasks ->
  exists name loaded sub,
    lookup (task args) config_map = Ok name /\
    yaml_load w (cfg_env_file w name) = Ok loaded /\
    getitem cfg_env "task" = Ok sub /\
    contains "randomize" sub = Ok true /\
    (forall loaded_sub,
        getitem loaded "task" = Ok loaded_sub ->
        contains "randomize" loaded_sub = Ok false ->
        exists value,
          randomize args = Some value /\ getitem sub "randomize" = Ok value).
Proof.
  intros R Hshadow.
  apply multi_agent_args_ok in R. destruct R as (_ & _ & E).
  rewrite (build_cfg_env_shadow w args Hshadow) in E.
  apply load_cfg_env_ok in E.
  destruct E as (name & loaded & named & Hname & Hload & Hnamed & Hcases).
  assert (Hkeep : forall k, k <> "name" ->
                            getitem named k = getitem loaded k).
  { intros k Hk. eapply getitem_setitem_other; eassumption. }
  destruct Hcases as [[Hno Hset] | (sub & value & sub' & Hsub & Hsub' & Hset
                                    & Hwhich)].
  - exists name, loaded, (PDict [(PStr "randomize", PBool false)]).
    repeat (split; [assumption|]).
    split; [eapply getitem_setitem_same; eassumption|].
    split; [reflexivity|].
    intros loaded_sub Hl _. rewrite <- Hkeep in Hl by discriminate.
    apply getitem_contains in Hl. rewrite Hl in Hno. discriminate Hno.
  - exists name, loaded, sub'.
    repeat (split; [assumption|]).
    split; [eapply getitem_setitem_same; eassumption|].
    split; [now apply (contains_setitem_same sub "randomize" value sub')|].
    intros loaded_sub Hl Hlacks. rewrite <- Hkeep in Hl by discriminate.
    rewrite Hsub in Hl. injection Hl as <-.
    destruct Hwhich as [[_ Hattr] | [Hhas _]].
    + exists value. split; [assumption|].
      now apply (getitem_setitem_same sub "randomize" value sub').
    + rewrite Hhas in Hlacks. discriminate Hlacks.
Qed.

Lemma randomize_filled_in_witness :
  exists args cfg_env cfg_train,
    multi_agent_args
      (shadow_world (Some (PBool true)) [(PStr "observationType", PStr "full")])
      "mappo" = Ok (args, cfg_env, cfg_train) /\
    In (task args) shadow_tasks /\
    exists name loaded sub,
      lookup (task args) config_map = Ok name /\
      yaml_load
        (shadow_world (Some (PBool true))
           [(PStr "observationType", PStr "full")])
        (cfg_env_file
           (shadow_world (Some (PBool true))
              [(PStr "observationType", PStr "full")]) name) = Ok loaded /\
      getitem cfg_env "task" = Ok sub /\
      contains "randomize" sub = Ok true /\
      (forall loaded_sub,
          getitem loaded "task" = Ok loaded_sub ->
          contains "randomize" loaded_sub = Ok false ->
          exists value,
            randomize args = Some value /\
            getitem sub "randomize" = Ok value).
Proof.
  do 3 eexists.
  split; [vm_compute; reflexivity|].
  split; [simpl; auto|].
  apply (randomize_filled_in
           (shadow_world (Some (PBool true))
              [(PStr "observationType", PStr "full")])
           "mappo" _ _ _ eq_refl).
  simpl. auto.
Defined.

(** C7, the code at a failing input.  A ShadowHandOver run with the
    simulator installed, whose parser returns the flags
    [custom_parameters] declares and its own device attributes, so no
    [randomize] attribute, on an environment file whose task mapping has no
    [randomize] key: the second YAML file is loaded, but the key is not
    filled in; reading [args.randomize] raises [AttributeError] and no
    [cfg_env] is returned.  Only when a [randomize] attribute is supplied
    from outside is the key filled in, with that attribute. *)
Theorem randomize_not_filled_in :
  In (task (parse_args
              (shadow_world None [(PStr "episodeLength", PInt 75)])))
     shadow_tasks /\
  gymutil_parse_arguments
    (shadow_world None [(PStr "episodeLength", PInt 75)])
    = Some (simulator_namespace None) /\
  randomize (simulator_namespace None) = None /\
  yaml_load (shadow_world None [(PStr "episodeLength", PInt 75)])
    (cfg_env_file (shadow_world None [(PStr "episodeLength", PInt 75)])
       "shadow_hand_over")
    = Ok (sample_cfg_env [(PStr "episodeLength", PInt 75)]) /\
  getitem (sample_cfg_env [(PStr "episodeLength", PInt 75)]) "task"
    = Ok (PDict [(PStr "episodeLength", PInt 75)]) /\
  contains "randomize" (PDict [(PStr "episodeLength", PInt 75)]) = Ok false /\
  multi_agent_args (shadow_world None [(PStr "episodeLength", PInt 75)])
    "mappo" = Raise AttributeError /\
  exists args cfg_env cfg_train,
    multi_agent_args
      (shadow_world (Some (PBool true)) [(PStr "episodeLength", PInt 75)])
      "mappo" = Ok (args, cfg_env, cfg_train) /\
    getitem cfg_env "task" =
      Ok (PDict [(PStr "episodeLength", PInt 75);
                 (PStr "randomize", PBool true)]).
Proof.
  split; [simpl; auto|].
  repeat (split; [reflexivity|]).
  do 3 eexists. split; [vm_compute; reflexivity | reflexivity].
Qed.

(** C9. For the two ShadowHand tasks, when the task sub-mapping of the
    loaded environment YAML already has a [randomize] key, the returned
    [cfg_env] holds [False] under it whatever the prior value was: the
    sub-mapping returned is the loaded one with [randomize] set to
    [False]. *)
Theorem randomize_overwritten (w : World) (algo : string) (args : Namespace)
        (cfg_env cfg_train : pyval) (name : string) (loaded : pyval)
        (entries : dict) (prior : pyval) :
  multi_agent_args w algo = Ok (args, cfg_env, cfg_train) ->
  In (task args) shadow_tasks ->
  lookup (task args) config_map = Ok name ->
  yaml_load w (cfg_env_file w name) = Ok loaded ->
  getitem loaded "task" = Ok (PDict entries) ->
  dict_find (PStr "randomize") entries = Some prior ->
  getitem cfg_env "task" =
    Ok (PDict (dict_set (PStr "randomize") (PBool false) entries)) /\
  (exists sub, getitem cfg_env "task" = Ok sub /\
               getitem sub "randomize" = Ok (PBool false)).
Proof.
  intros R Hshadow Hname Hload Htask Hprior.
  apply multi_agent_args_ok in R. destruct R as (_ & _ & E).
  rewrite (build_cfg_env_shadow w args Hshadow) in E.
  apply load_cfg_env_ok in E.
  destruct E as (name' & loaded' & named & Hname' & Hload' & Hnamed & Hcases).
  rewrite Hname in Hname'. injection Hname' as <-.
  rewrite Hload in Hload'. injection Hload' as <-.
  assert (Hsub : getitem named "task" = Ok (PDict entries)).
  { rewrite <- Htask. eapply getitem_setitem_other; [|eassumption].
    discriminate. }
  assert (Hhas : contains "randomize" (PDict entries) = Ok true).
  { simpl. now rewrite Hprior. }
  destruct Hcases as [[Hno _] | (sub & value & sub' & Hsub' & Hset' & Hset
                                 & Hwhich)].
  - apply getitem_contains in Hsub. rewrite Hsub in Hno. discriminate Hno.
  - rewrite Hsub in Hsub'. injection Hsub' as <-.
    destruct Hwhich as [[Hlacks _] | [_ ->]].
    + rewrite Hhas in Hlacks. discriminate Hlacks.
    + simpl in Hset'. injection Hset' as <-.
      assert (Hget : getitem cfg_env "task" =
                Ok (PDict (dict_set (PStr "randomize") (PBool false) entries)))
        by (eapply getitem_setitem_same; eassumption).
      split; [assumption|].
      eexists. split; [eassumption|].
      simpl. now rewrite dict_find_set_same.
Qed.

Lemma randomize_overwritten_witness :
  exists args cfg_env cfg_train,
    multi_agent_args
      (shadow_world None [(PStr "randomize", PBool true)]) "mappo"
      = Ok (args, cfg_env, cfg_train) /\
    getitem cfg_env "task" = Ok (PDict [(PStr "randomize", PBool false)]) /\
    (exists sub, getitem cfg_env "task" = Ok sub /\
                 getitem sub "randomize" = Ok (PBool false)).
Proof.
  do 3 eexists.
  split; [vm_compute; reflexivity|].
  apply (randomize_overwritten
           (shadow_world None [(PStr "randomize", PBool true)]) "mappo"
           _ _ _ "shadow_hand_over"
           (sample_cfg_env [(PStr "randomize", PBool true)])
           [(PStr "randomize", PBool true)] (PBool true) eq_refl).
  - simpl. auto.
  - reflexivity.
  - reflexivity.
  - reflexivity.
  - reflexivity.
Defined.

(** *** When the builder returns *)

(** Laid over a mapping, the derived fields never raise. *)
Lemma overlay_cfg_train_dict (w : World) (args : Namespace) (algo : string)
      (d : dict) :
  exists d', overlay_cfg_train w args algo (PDict d) = Ok (PDict d').
Proof.
  unfold overlay_cfg_train. simpl.
  destruct (total_steps args) as [n|]; [destruct (Z.eqb n 0)|];
    (destruct (num_envs args) as [m|]; [destruct (Z.eqb m 0)|]);
    simpl; eexists; reflexivity.
Qed.

Lemma lookup_shadow (t : string) :
  In t shadow_tasks -> exists name, lookup t config_map = Ok name.
Proof.
  simpl. intros [<-|[<-|[]]]; eexists; reflexivity.
Qed.

Lemma shadow_not_mujoco (t : string) :
  In t shadow_tasks -> String.eqb t MujocoVelocity = false.
Proof.
  simpl. intros [<-|[<-|[]]]; reflexivity.
Qed.

(** For a ShadowHand task the builder returns as soon as both files load
    as mappings and the task entry of the second, if any, is a mapping
    that has a [randomize] key or can take the one of the parsed flags. *)
Lemma shadow_task_returns (w : World) (algo : string) (args : Namespace)
      (name : string) (d_train d_env : dict) :
  parsed_args w = Ok args ->
  In (task args) shadow_tasks ->
  lookup (task args) config_map = Ok name ->
  yaml_load w (cfg_train_file w algo) = Ok (PDict d_train) ->
  yaml_load w (cfg_env_file w name) = Ok (PDict d_env) ->
  match dict_find (PStr "task")
          (dict_set (PStr "name") (PStr (task args)) d_env)
  with
  | None => True
  | Some (PDict entries) =>
      dict_find (PStr "randomize") entries <> None \/ randomize args <> None
  | Some _ => False
  end ->
  returns (multi_agent_args w algo).
Proof.
  intros Hargs Hshadow Hname Htrain Henv Htask.
  unfold multi_agent_args. rewrite Hargs. simpl.
  unfold build_cfg_train, load_cfg_train.
  rewrite Htrain, (shadow_not_mujoco _ Hshadow). simpl.
  destruct (overlay_cfg_train_dict w args algo d_train) as [d' ->]. simpl.
  rewrite (build_cfg_env_shadow w args Hshadow).
  unfold load_cfg_env. rewrite Hname. simpl. rewrite Henv. simpl.
  destruct (dict_find (PStr "task")
              (dict_set (PStr "name") (PStr (task args)) d_env))
    as [[| | | | | |entries]|]; simpl; try contradiction.
  - destruct (dict_find (PStr "randomize") entries) as [prior|] eqn:Hprior;
      simpl.
    + eexists; reflexivity.
    + destruct Htask as [H|H]; [congruence|].
      destruct (randomize args); [|congruence].
      simpl. eexists; reflexivity.
  - eexists; reflexivity.
Qed.

(** *** The [mamujoco] entry *)

Lemma parsed_args_mujoco (w : World) :
  task (parse_args w) = MujocoVelocity -> parsed_args w = Ok (parse_args w).
Proof.
  intros H. unfold parsed_args. now rewrite H.
Qed.

Lemma build_cfg_env_mujoco (w : World) (args : Namespace) :
  task args = MujocoVelocity -> build_cfg_env w args = Ok (PDict []).
Proof.
  intros H. unfold build_cfg_env. now rewrite H.
Qed.

(** C10, claim as stated, refuted: with a training file whose [mamujoco]
    entry is the empty sequence, [dict.update] has nothing to merge and
    [multi_agent_args] returns a configuration for MujocoVelocity although
    the entry is not a mapping. *)
Lemma mamujoco_counterexample :
  task (parse_args
          (mujoco_world default_namespace "2023-08-14-09-30-00"
             (PDict [(PStr "mamujoco", PList [])]))) = MujocoVelocity /\
  yaml_load
    (mujoco_world default_namespace "2023-08-14-09-30-00"
       (PDict [(PStr "mamujoco", PList [])]))
    (cfg_train_file
       (mujoco_world default_namespace "2023-08-14-09-30-00"
          (PDict [(PStr "mamujoco", PList [])])) "mappo")
    = Ok (PDict [(PStr "mamujoco", PList [])]) /\
  returns
    (multi_agent_args
       (mujoco_world default_namespace "2023-08-14-09-30-00"
          (PDict [(PStr "mamujoco", PList [])])) "mappo") /\
  ~ (returns
       (multi_agent_args
          (mujoco_world default_namespace "2023-08-14-09-30-00"
             (PDict [(PStr "mamujoco", PList [])])) "mappo") ->
     exists d m,
       yaml_load
         (mujoco_world default_namespace "2023-08-14-09-30-00"
            (PDict [(PStr "mamujoco", PList [])]))
         (cfg_train_file
            (mujoco_world default_namespace "2023-08-14-09-30-00"
               (PDict [(PStr "mamujoco", PList [])])) "mappo")
         = Ok (PDict d) /\
       dict_find (PStr "mamujoco") d = Some (PDict m)).
Proof.
  assert (R : returns
    (multi_agent_args
       (mujoco_world default_namespace "2023-08-14-09-30-00"
          (PDict [(PStr "mamujoco", PList [])])) "mappo")).
  { eexists. vm_compute. reflexivity. }
  split; [reflexivity|]. split; [reflexivity|]. split; [exact R|].
  intros H. destruct (H R) as (d & m & Hd & Hm).
  vm_compute in Hd. injection Hd as <-.
  vm_compute in Hm. discriminate Hm.
Qed.

(** C10, amended. For the task "MujocoVelocity", [multi_agent_args]
    returns a configuration only if the mapping loaded for the algorithm has
    a "mamujoco" key whose value [dict.update] accepts: a mapping, a
    sequence (of key/value pairs, the empty sequence included) or the empty
    string.  With a mapping under the key it does return.  If the key is
    absent the merge step raises [TypeError] (updating with [None]) and no
    configuration is returned. *)
Theorem mamujoco_required (w : World) (algo : string) :
  task (parse_args w) = MujocoVelocity ->
  (returns (multi_agent_args w algo) ->
   exists d v d',
     yaml_load w (cfg_train_file w algo) = Ok (PDict d) /\
     dict_find (PStr "mamujoco") d = Some v /\
     mergeable v /\ dict_update d v = Ok d') /\
  (forall d m,
      yaml_load w (cfg_train_file w algo) = Ok (PDict d) ->
      dict_find (PStr "mamujoco") d = Some (PDict m) ->
      returns (multi_agent_args w algo)) /\
  (forall d,
      yaml_load w (cfg_train_file w algo) = Ok (PDict d) ->
      dict_find (PStr "mamujoco") d = None ->
      multi_agent_args w algo = Raise TypeError /\
      ~ returns (multi_agent_args w algo)).
Proof.
  intros Htask.
  unfold multi_agent_args. rewrite (parsed_args_mujoco w Htask). simpl.
  unfold build_cfg_train, load_cfg_train. rewrite Htask. simpl.
  split; [|split].
  - intros [[[args cfg_env] cfg_train] R].
    destruct (yaml_load w (cfg_train_file w algo)) as [[| | | | | |d]|];
      simpl in R; try discriminate R.
    destruct (dict_find (PStr "mamujoco") d) as [v|] eqn:Hv;
      simpl in R; [|discriminate R].
    destruct (dict_update d v) as [d'|] eqn:Hupdate;
      simpl in R; [|discriminate R].
    exists d, v, d'. split; [reflexivity|]. split; [exact Hv|].
    split; [exact (dict_update_ok d v d' Hupdate) | exact Hupdate].
  - intros d m Hload Hm. rewrite Hload. simpl. rewrite Hm. simpl.
    destruct (overlay_cfg_train_dict w (parse_args w) algo (dict_merge d m))
      as [d' ->]. simpl.
    rewrite (build_cfg_env_mujoco w _ Htask). simpl. eexists; reflexivity.
  - intros d Hload Hm. rewrite Hload. simpl. rewrite Hm. simpl.
    split; [reflexivity|]. intros [r Hr]. discriminate Hr.
Qed.

Lemma mamujoco_required_witness :
  (returns
     (multi_agent_args
        (mujoco_world default_namespace "2023-08-14-09-30-00" sample_cfg_train)
        "mappo") ->
   exists d v d',
     yaml_load
       (mujoco_world default_namespace "2023-08-14-09-30-00" sample_cfg_train)
       (cfg_train_file
          (mujoco_world default_namespace "2023-08-14-09-30-00"
             sample_cfg_train) "mappo") = Ok (PDict d) /\
     dict_find (PStr "mamujoco") d = Some v /\
     mergeable v /\ dict_update d v = Ok d') /\
  returns
    (multi_agent_args
       (mujoco_world default_namespace "2023-08-14-09-30-00" sample_cfg_train)
       "mappo").
Proof.
  destruct (mamujoco_required
              (mujoco_world default_namespace "2023-08-14-09-30-00"
                 sample_cfg_train) "mappo" eq_refl) as (Honly & Hif & _).
  split; [exact Honly|].
  eapply Hif; reflexivity.
Defined.

End ConfigSpec.

(* ================================================================== *)
(** ** Further facts about the run-time fragment *)
(* ================================================================== *)

Module PyMore.
Import Py PyFacts.

Lemma length_append (a b : string) :
  String.length (a ++ b) = (String.length a + String.length b)%nat.
Proof.
  induction a as [|c a IH]; simpl; [reflexivity | now rewrite IH].
Qed.

Lemma append_inv_tail (a b c : string) : a ++ c = b ++ c -> a = b.
Proof.
  revert b. induction a as [|x a IH]; intros [|y b] H; simpl in H.
  - reflexivity.
  - apply (f_equal String.length) in H. simpl in H.
    rewrite length_append in H. lia.
  - apply (f_equal String.length) in H. simpl in H.
    rewrite length_append in H. lia.
  - injection H as -> H. f_equal. now apply IH.
Qed.

Lemma char_free_append (c : ascii) (a b : string) :
  char_free c (a ++ b) = char_free c a && char_free c b.
Proof.
  induction a as [|x a IH]; simpl; [reflexivity|].
  now rewrite IH, andb_assoc.
Qed.

(** Cutting at the first occurrence of a character. *)
Lemma split_at_char (c : ascii) (a b t1 t2 : string) :
  char_free c a = true -> char_free c b = true ->
  a ++ String c t1 = b ++ String c t2 -> a = b /\ t1 = t2.
Proof.
  revert b. induction a as [|x a IH]; intros [|y b] Ha Hb H; simpl in *.
  - injection H as H. auto.
  - injection H as Hc _. subst y. rewrite Ascii.eqb_refl in Hb.
    discriminate Hb.
  - injection H as Hc _. subst x. rewrite Ascii.eqb_refl in Ha.
    discriminate Ha.
  - injection H as Hc H. subst y.
    apply andb_true_iff in Ha, Hb.
    destruct (IH b (proj2 Ha) (proj2 Hb) H) as [-> ->]. auto.
Qed.

Lemma prefix_append (a x y : string) :
  (String.length a <= String.length x)%nat ->
  String.prefix a (x ++ y) = String.prefix a x.
Proof.
  revert x. induction a as [|c a IH]; intros [|b x] H; simpl in *;
    try reflexivity; try lia.
  - destruct y; reflexivity.
  - destruct (ascii_dec c b); [|reflexivity]. apply IH. lia.
Qed.

Lemma replace_from_cons (old new : string) (c : ascii) (s : string) :
  replace_from 0 old new (String c s) =
  if String.prefix old (String c s)
  then new ++ replace_from (String.length old - 1) old new s
  else String c (replace_from 0 old new s).
Proof. reflexivity. Qed.

Lemma ends_with_slash_append (a b : string) :
  b <> "" -> ends_with_slash (a ++ b) = ends_with_slash b.
Proof.
  intros Hb. unfold ends_with_slash.
  rewrite length_append, (append_correct2 a b (String.length b - 1)).
  replace (String.length b - 1 + String.length a)%nat
    with (String.length a + String.length b - 1)%nat; [reflexivity|].
  destruct b; [congruence | simpl; lia].
Qed.

End PyMore.

(* ================================================================== *)
(** ** Further properties of the benchmark driver *)
(* ================================================================== *)

Module BenchmarkExtra.
Import Py PyFacts PyMore Benchmark BenchmarkSpec.

(** *** One call of [run_experiment] *)

(** X1. [run_experiment] returns normally exactly when the command line
    splits, the subprocess starts and its return code is 0; in every other
    case the call ends in an exception. *)
Theorem run_experiment_returns_iff shlex_split spawn (command : string) :
  snd (run_experiment shlex_split spawn command) = Ok tt <->
  exists command_list,
    shlex_split command = Ok command_list /\ spawn command_list = Ok 0%Z.
Proof.
  unfold run_experiment. split.
  - destruct (shlex_split command) as [command_list|e]; [|discriminate].
    destruct (spawn command_list) as [code|e] eqn:Hspawn; [|discriminate].
    simpl. destruct (Z.eqb_spec code 0) as [->|Hne]; [|discriminate].
    intros _. exists command_list. auto.
  - intros (command_list & -> & ->). reflexivity.
Qed.

(** X2. A call of [run_experiment] starts at most one subprocess, and only
    on the argument list [shlex.split] gives for its command; it waits
    exactly for the subprocess it started; when the split fails it prints
    nothing and starts nothing, and the split's exception is what the call
    raises. *)
Theorem run_experiment_trace shlex_split spawn (command : string) :
  (length (filter is_popen (fst (run_experiment shlex_split spawn command)))
     <= 1)%nat /\
  (forall command_list,
      In (Popen command_list)
         (fst (run_experiment shlex_split spawn command)) ->
      shlex_split command = Ok command_list /\
      exists return_code,
        spawn command_list = Ok return_code /\
        fst (run_experiment shlex_split spawn command) =
          [Print ("running " ++ command); Popen command_list;
           Wait return_code]) /\
  (forall e,
      shlex_split command = Raise e ->
      run_experiment shlex_split spawn command = ([], Raise e)).
Proof.
  unfold run_experiment.
  destruct (shlex_split command) as [command_list|e].
  - destruct (spawn command_list) as [code|e'] eqn:Hspawn; simpl.
    + split; [lia|]. split; [|discriminate].
      intros l [H|[H|[H|[]]]]; try discriminate H.
      injection H as <-. split; [reflexivity|]. exists code. auto.
    + split; [lia|]. split; [|discriminate].
      intros l [H|[]]. discriminate H.
  - simpl. split; [lia|]. split; [intros l []|].
    intros e' [= ->]. reflexivity.
Qed.

(** *** The whole run *)

(** X3. With a worker count that is zero or negative the driver submits
    nothing: it prints the header, every command and the closing notice,
    and starts no subprocess. *)
Theorem nonpositive_workers_run_nothing shlex_split spawn (args : Args) :
  (workers args <= 0)%Z ->
  jobs (main shlex_split spawn args) = [] /\
  subprocesses (main shlex_split spawn args) = [] /\
  printed (main shlex_split spawn args) =
    (header :: commands args ++ [not_running])%list.
Proof.
  intros Hw. unfold main, subprocesses.
  destruct (Z.gtb_spec (workers args) 0) as [Hpos|_]; [lia|].
  repeat split.
Qed.

Lemma nonpositive_workers_run_nothing_witness :
  jobs (main sample_split sample_spawn_failing (with_workers (-2) sample_args))
    = [] /\
  subprocesses
    (main sample_split sample_spawn_failing (with_workers (-2) sample_args))
    = [] /\
  printed
    (main sample_split sample_spawn_failing (with_workers (-2) sample_args)) =
    (header :: commands (with_workers (-2) sample_args) ++ [not_running])%list.
Proof.
  apply (nonpositive_workers_run_nothing sample_split sample_spawn_failing
           (with_workers (-2) sample_args)).
  simpl. lia.
Defined.

Lemma popen_count shlex_split spawn (command : string) :
  length (filter is_popen (fst (run_experiment shlex_split spawn command))) =
  if starts shlex_split spawn command then 1%nat else 0%nat.
Proof.
  unfold run_experiment, starts.
  destruct (shlex_split command) as [command_list|e]; [|reflexivity].
  destruct (spawn command_list); reflexivity.
Qed.

Lemma length_flat_map_filter {A B : Type} (f : A -> list B) (p : A -> bool)
      (l : list A) :
  (forall x, length (f x) = if p x then 1%nat else 0%nat) ->
  length (flat_map f l) = length (filter p l).
Proof.
  intros Hf. induction l as [|x l IH]; simpl; [reflexivity|].
  rewrite length_app, IH, Hf. destruct (p x); reflexivity.
Qed.

(** X4. With a positive worker count the jobs are the generated commands,
    one job each and in the same order; the subprocesses started over the
    run are as many as the commands that split and start, so never more
    than the commands, and exactly as many when all of them start. *)
Theorem one_job_per_command shlex_split spawn (args : Args) :
  (0 < workers args)%Z ->
  map fst (jobs (main shlex_split spawn args)) = commands args /\
  length (subprocesses (main shlex_split spawn args)) =
    length (filter (starts shlex_split spawn) (commands args)) /\
  (length (subprocesses (main shlex_split spawn args))
     <= length (commands args))%nat /\
  ((forall c, In c (commands args) -> starts shlex_split spawn c = true) ->
   length (subprocesses (main shlex_split spawn args)) =
     length (commands args)).
Proof.
  intros Hw.
  destruct (jobs_submitted shlex_split spawn args Hw) as [Hjobs _].
  assert (Hcount : length (subprocesses (main shlex_split spawn args)) =
                   length (filter (starts shlex_split spawn) (commands args))).
  { unfold subprocesses. rewrite Hjobs, flat_map_concat_map, map_map.
    rewrite <- flat_map_concat_map. simpl.
    apply length_flat_map_filter. intros c. apply popen_count. }
  split; [rewrite Hjobs, map_map; simpl; apply map_id|].
  split; [exact Hcount|]. rewrite Hcount. split.
  - apply filter_length_le.
  - intros Hall. f_equal. apply forallb_filter_id.
    apply forallb_forall. exact Hall.
Qed.

Lemma one_job_per_command_witness :
  map fst (jobs (main sample_split sample_spawn_ok sample_args)) =
    commands sample_args /\
  length (subprocesses (main sample_split sample_spawn_ok sample_args)) =
    length (filter (starts sample_split sample_spawn_ok)
              (commands sample_args)) /\
  (length (subprocesses (main sample_split sample_spawn_ok sample_args))
     <= length (commands sample_args))%nat /\
  ((forall c, In c (commands sample_args) ->
              starts sample_split sample_spawn_ok c = true) ->
   length (subprocesses (main sample_split sample_spawn_ok sample_args)) =
     length (commands sample_args)).
Proof.
  apply (one_job_per_command sample_split sample_spawn_ok sample_args).
  simpl. lia.
Defined.

(** *** No two commands coincide *)

Lemma command_text_cut (args : Args) (seed : Z) (env_id a : string) :
  command args seed env_id a =
  "python "
    ++ (a ++ ".py")
    ++ String " " ("--env-id "
    ++ env_id
    ++ String " " ("--seed "
    ++ str (start_seed args + 1000 * seed)
    ++ String " " ("--write-terminal False --log-dir ../runs --experiment "
    ++ experiment args))).
Proof.
  rewrite command_text, !append_assoc. reflexivity.
Qed.

(** Words without blanks can be read back from the command text. *)
Lemma command_inj (args : Args) (i j : Z) (e e' a a' : string) :
  char_free " " e = true -> char_free " " e' = true ->
  char_free " " a = true -> char_free " " a' = true ->
  command args i e a = command args j e' a' ->
  i = j /\ e = e' /\ a = a'.
Proof.
  intros He He' Ha Ha' H. rewrite !command_text_cut in H.
  apply append_inv_head in H.
  apply split_at_char in H;
    [|rewrite char_free_append, ?Ha, ?Ha'; reflexivity ..].
  destruct H as [Halgo H]. apply append_inv_tail in Halgo.
  apply append_inv_head in H.
  apply split_at_char in H; [|assumption ..].
  destruct H as [Henv H].
  apply append_inv_head in H.
  apply split_at_char in H; [|apply space_free_str ..].
  destruct H as [Hseed _]. apply str_inj in Hseed.
  repeat split; [lia | assumption | assumption].
Qed.

Lemma NoDup_list_prod {A B : Type} (l : list A) (l' : list B) :
  NoDup l -> NoDup l' -> NoDup (list_prod l l').
Proof.
  intros Hl Hl'. induction Hl as [|x l Hx Hl IH]; simpl; [constructor|].
  apply NoDup_app.
  - apply NoDup_map_NoDup_ForallPairs; [|assumption].
    intros y y' _ _ E. now injection E.
  - exact IH.
  - intros [x' y] Hin Hin'. apply in_map_iff in Hin.
    destruct Hin as (y' & [= <- <-] & _).
    apply in_prod_iff in Hin'. tauto.
Qed.

Lemma NoDup_range (n : Z) : NoDup (range n).
Proof.
  unfold range. apply NoDup_map_NoDup_ForallPairs; [|apply seq_NoDup].
  intros x y _ _ E. now apply Nat2Z.inj.
Qed.

(** X5. When the environment ids are pairwise distinct, the algorithm
    names are pairwise distinct and none of them contains a blank, no two
    of the generated commands are the same text: every (seed, environment,
    algorithm) combination is launched by a command of its own. *)
Theorem commands_distinct (args : Args) :
  NoDup (env_ids args) -> NoDup (algo args) ->
  forallb (char_free " ") (env_ids args) = true ->
  forallb (char_free " ") (algo args) = true ->
  NoDup (commands args).
Proof.
  intros Henv Halgo Fenv Falgo.
  rewrite commands_product. unfold descriptors.
  apply NoDup_map_NoDup_ForallPairs.
  - intros [i [e a]] [j [e' a']] Hx Hy E. unfold command_of in E. simpl in E.
    apply in_prod_iff in Hx, Hy. destruct Hx as [_ Hx], Hy as [_ Hy].
    apply in_prod_iff in Hx, Hy. destruct Hx as [He Ha], Hy as [He' Ha'].
    rewrite forallb_forall in Fenv, Falgo.
    destruct (command_inj args i j e e' a a'
                (Fenv _ He) (Fenv _ He') (Falgo _ Ha) (Falgo _ Ha') E)
      as (-> & -> & ->).
    reflexivity.
  - apply NoDup_list_prod; [apply NoDup_range|].
    now apply NoDup_list_prod.
Qed.

Lemma NoDup_by_nodup (l : list string) : nodup string_dec l = l -> NoDup l.
Proof.
  intros <-. apply NoDup_nodup.
Qed.

Lemma commands_distinct_witness :
  NoDup (commands default_args) /\ length (commands default_args) = 720%nat.
Proof.
  split; [|vm_compute; reflexivity].
  apply (commands_distinct default_args).
  - apply NoDup_by_nodup. vm_compute. reflexivity.
  - apply NoDup_by_nodup. vm_compute. reflexivity.
  - vm_compute. reflexivity.
  - vm_compute. reflexivity.
Defined.

(** X22. The driver generates no command at all exactly when the number
    of seeds is zero or negative, or there is no environment id, or there
    is no algorithm. *)
Theorem no_commands_iff (args : Args) :
  commands args = [] <->
  (num_seeds args <= 0)%Z \/ env_ids args = [] \/ algo args = [].
Proof.
  rewrite <- length_zero_iff_nil, commands_product, length_map.
  unfold descriptors, range. rewrite !length_prod, length_map, length_seq.
  rewrite <- (length_zero_iff_nil (env_ids args)).
  rewrite <- (length_zero_iff_nil (algo args)).
  split.
  - intros H. apply Nat.eq_mul_0 in H. destruct H as [H|H]; [left; lia|].
    apply Nat.eq_mul_0 in H. tauto.
  - intros [H|[H|H]].
    + replace (Z.to_nat (num_seeds args)) with 0%nat by lia. reflexivity.
    + rewrite H. lia.
    + rewrite H. lia.
Qed.

End BenchmarkExtra.

(* ================================================================== *)
(** ** Further properties of the config builder *)
(* ================================================================== *)

Module ConfigExtra.
Import Py PyFacts PyMore Config ConfigSpec.

(** *** Dictionaries, continued *)

Lemma key_eqb_str_l (k : string) (x : pyval) :
  key_eqb (PStr k) x = true -> x = PStr k.
Proof.
  destruct x; simpl; try discriminate.
  intros H. apply String.eqb_eq in H. now subst.
Qed.

Lemma dict_find_set (k : string) (k' v : pyval) (d : dict) :
  dict_find (PStr k) (dict_set k' v d) =
  if key_eqb k' (PStr k) then Some v else dict_find (PStr k) d.
Proof.
  induction d as [|[x v'] d IH]; simpl; [reflexivity|].
  destruct (key_eqb x k') eqn:Exk; simpl.
  - destruct (key_eqb k' (PStr k)) eqn:Ek.
    + apply key_eqb_str in Ek. subst k'. now rewrite Exk.
    + destruct (key_eqb x (PStr k)) eqn:Ex; [|reflexivity].
      apply key_eqb_str in Ex. subst x.
      apply key_eqb_str_l in Exk. subst k'.
      simpl in Ek. rewrite String.eqb_refl in Ek. discriminate Ek.
  - rewrite IH.
    destruct (key_eqb x (PStr k)) eqn:Ex; [|reflexivity].
    destruct (key_eqb k' (PStr k)) eqn:Ek; [|reflexivity].
    apply key_eqb_str in Ex, Ek. subst x k'.
    simpl in Exk. rewrite String.eqb_refl in Exk. discriminate Exk.
Qed.

(** After [d.update(other)] a key holds the last value [other] gives it,
    and otherwise the value it had in [d]. *)
Lemma dict_find_merge (k : string) (d other : dict) :
  dict_find (PStr k) (dict_merge d other) =
  match dict_find (PStr k) (rev other) with
  | Some v => Some v
  | None => dict_find (PStr k) d
  end.
Proof.
  unfold dict_merge. induction other as [|[k' v] other IH] using rev_ind.
  - reflexivity.
  - rewrite fold_left_app, rev_app_distr. simpl.
    rewrite dict_find_set, IH.
    destruct (key_eqb k' (PStr k)); reflexivity.
Qed.

(** *** The derived fields of [cfg_train] *)

Lemma total_steps_step (args : Namespace) (c c' : pyval) :
  match total_steps args with
  | Some n =>
      if Z.eqb n 0 then Ok c else setitem c "num_env_steps" (PInt n)
  | None => Ok c
  end = Ok c' ->
  (forall k, k <> "num_env_steps" -> getitem c' k = getitem c k) /\
  getitem c' "num_env_steps" =
    match given (total_steps args) with
    | Some n => Ok (PInt n)
    | None => getitem c "num_env_steps"
    end.
Proof.
  unfold given. destruct (total_steps args) as [n|];
    [destruct (Z.eqb n 0)|]; intros H; try (injection H as <-; auto).
  split.
  - intros k Hk. eapply getitem_setitem_other; eassumption.
  - eapply getitem_setitem_same; eassumption.
Qed.

Lemma num_envs_step (args : Namespace) (c c' : pyval) :
  match num_envs args with
  | Some n =>
      if Z.eqb n 0 then Ok c
      else
        cfg_train <- setitem c "n_rollout_threads" (PInt n) ;;
        setitem cfg_train "n_eval_rollout_threads" (PInt n)
  | None => Ok c
  end = Ok c' ->
  (forall k, k <> "n_rollout_threads" -> k <> "n_eval_rollout_threads" ->
             getitem c' k = getitem c k) /\
  getitem c' "n_rollout_threads" =
    match given (num_envs args) with
    | Some n => Ok (PInt n)
    | None => getitem c "n_rollout_threads"
    end /\
  getitem c' "n_eval_rollout_threads" =
    match given (num_envs args) with
    | Some n => Ok (PInt n)
    | None => getitem c "n_eval_rollout_threads"
    end.
Proof.
  unfold given. destruct (num_envs args) as [n|];
    [destruct (Z.eqb n 0)|]; intros H; try (injection H as <-; auto).
  apply bind_ok in H. destruct H as (c1 & H1 & H2).
  pose proof (fun k Hne => getitem_setitem_other c k _ _ c1 Hne H1) as P1.
  pose proof (fun k Hne => getitem_setitem_other c1 k _ _ c' Hne H2) as P2.
  repeat split.
  - intros k Hk1 Hk2. now rewrite P2, P1.
  - rewrite P2 by discriminate. eapply getitem_setitem_same; eassumption.
  - eapply getitem_setitem_same; eassumption.
Qed.

(** What the overlay leaves in the configuration it returns. *)
Lemma overlay_cfg_train_spec (w : World) (args : Namespace) (algo : string)
      (c t : pyval) :
  overlay_cfg_train w args algo c = Ok t ->
  (forall k, ~ In k derived_keys -> getitem t k = getitem c k) /\
  getitem t "use_eval" = Ok (PBool (use_eval args)) /\
  getitem t "safety_bound" = Ok (PFloat (safety_bound args)) /\
  getitem t "algorithm_name" = Ok (PStr algo) /\
  getitem t "device" =
    Ok (PStr (device args ++ ":" ++ str (device_id args))) /\
  getitem t "env_name" = Ok (PStr (env_name_of args)) /\
  getitem t "num_env_steps" =
    match given (total_steps args) with
    | Some n => Ok (PInt n)
    | None => getitem c "num_env_steps"
    end /\
  getitem t "n_rollout_threads" =
    match given (num_envs args) with
    | Some n => Ok (PInt n)
    | None => getitem c "n_rollout_threads"
    end /\
  getitem t "n_eval_rollout_threads" =
    match given (num_envs args) with
    | Some n => Ok (PInt n)
    | None => getitem c "n_eval_rollout_threads"
    end.
Proof.
  unfold overlay_cfg_train. intros H.
  apply bind_ok in H. destruct H as (c1 & H1 & H).
  apply bind_ok in H. destruct H as (c2 & H2 & H).
  apply bind_ok in H. destruct H as (c3 & H3 & H).
  apply bind_ok in H. destruct H as (c4 & H4 & H).
  apply bind_ok in H. destruct H as (c5 & H5 & H).
  apply bind_ok in H. destruct H as (c6 & H6 & H).
  apply bind_ok in H. destruct H as (c7 & H7 & H8).
  apply total_steps_step in H6. destruct H6 as [P6 S6].
  apply num_envs_step in H7. destruct H7 as (P7 & R7 & E7).
  pose proof (fun k Hne => getitem_setitem_other c k _ _ c1 Hne H1) as P1.
  pose proof (fun k Hne => getitem_setitem_other c1 k _ _ c2 Hne H2) as P2.
  pose proof (fun k Hne => getitem_setitem_other c2 k _ _ c3 Hne H3) as P3.
  pose proof (fun k Hne => getitem_setitem_other c3 k _ _ c4 Hne H4) as P4.
  pose proof (fun k Hne => getitem_setitem_other c4 k _ _ c5 Hne H5) as P5.
  pose proof (fun k Hne => getitem_setitem_other c7 k _ _ t Hne H8) as P8.
  apply getitem_setitem_same in H1, H2, H3, H4, H5.
  repeat split.
  - intros k Hk.
    assert (Hne : forall k', In k' derived_keys -> k <> k').
    { intros k' Hin ->. contradiction. }
    rewrite P8, P7, P6, P5, P4, P3, P2, P1;
      try reflexivity; apply Hne; simpl; tauto.
  - rewrite P8, P7, P6, P5, P4, P3, P2 by discriminate. exact H1.
  - rewrite P8, P7, P6, P5, P4, P3 by discriminate. exact H2.
  - rewrite P8, P7, P6, P5, P4 by discriminate. exact H3.
  - rewrite P8, P7, P6, P5 by discriminate. exact H4.
  - rewrite P8, P7, P6 by discriminate. exact H5.
  - rewrite P8, P7, S6 by discriminate.
    destruct (given (total_steps args)); [reflexivity|].
    now rewrite P5, P4, P3, P2, P1 by discriminate.
  - rewrite P8, R7 by discriminate.
    destruct (given (num_envs args)); [reflexivity|].
    now rewrite P6, P5, P4, P3, P2, P1 by discriminate.
  - rewrite P8, E7 by discriminate.
    destruct (given (num_envs args)); [reflexivity|].
    now rewrite P6, P5, P4, P3, P2, P1 by discriminate.
Qed.

Lemma build_cfg_train_ok (w : World) (args : Namespace) (algo : string)
      (t : pyval) :
  build_cfg_train w args algo = Ok t ->
  exists c, load_cfg_train w args algo = Ok c /\
            overlay_cfg_train w args algo c = Ok t.
Proof.
  unfold build_cfg_train. intros H. now apply bind_ok in H.
Qed.

Lemma multi_agent_args_train (w : World) (algo : string) (args : Namespace)
      (cfg_env cfg_train : pyval) :
  multi_agent_args w algo = Ok (args, cfg_env, cfg_train) ->
  exists c, load_cfg_train w args algo = Ok c /\
            overlay_cfg_train w args algo c = Ok cfg_train.
Proof.
  intros R. apply multi_agent_args_ok in R. destruct R as (_ & T & _).
  now apply build_cfg_train_ok.
Qed.

(** X6. In every configuration [multi_agent_args] returns, the fields
    [use_eval], [safety_bound], [algorithm_name], [device] and [env_name] of
    [cfg_train] hold the values derived from the parsed flags and the
    algorithm name, whatever the YAML file (or its [mamujoco] entry) holds
    under these keys: the device is [device:device_id], the environment
    name is ["Safety" + agent_conf + scenario + "Velocity-v0"] for
    MujocoVelocity and the task name otherwise. *)
Theorem flags_override_file (w : World) (algo : string) (args : Namespace)
        (cfg_env cfg_train : pyval) :
  multi_agent_args w algo = Ok (args, cfg_env, cfg_train) ->
  getitem cfg_train "use_eval" = Ok (PBool (use_eval args)) /\
  getitem cfg_train "safety_bound" = Ok (PFloat (safety_bound args)) /\
  getitem cfg_train "algorithm_name" = Ok (PStr algo) /\
  getitem cfg_train "device" =
    Ok (PStr (device args ++ ":" ++ str (device_id args))) /\
  getitem cfg_train "env_name" =
    Ok (PStr (if String.eqb (task args) MujocoVelocity
              then "Safety" ++ agent_conf args ++ scenario args
                     ++ "Velocity-v0"
              else task args)).
Proof.
  intros R. apply multi_agent_args_train in R. destruct R as (c & _ & O).
  apply overlay_cfg_train_spec in O. tauto.
Qed.

Lemma flags_override_file_witness :
  exists args cfg_env cfg_train,
    multi_agent_args
      (mujoco_world default_namespace "2023-08-14-09-30-00"
         (PDict [ (PStr "device", PStr "cuda:7");
                  (PStr "mamujoco",
                   PDict [(PStr "env_name", PStr "Other")]) ]))
      "mappo" = Ok (args, cfg_env, cfg_train) /\
    getitem cfg_train "use_eval" = Ok (PBool false) /\
    getitem cfg_train "safety_bound" = Ok (PFloat 4627730092099895296) /\
    getitem cfg_train "algorithm_name" = Ok (PStr "mappo") /\
    getitem cfg_train "device" = Ok (PStr "cpu:0") /\
    getitem cfg_train "env_name" = Ok (PStr "Safety2x1SwimmerVelocity-v0").
Proof.
  do 3 eexists. split; [vm_compute; reflexivity|].
  apply (flags_override_file
           (mujoco_world default_namespace "2023-08-14-09-30-00"
              (PDict [ (PStr "device", PStr "cuda:7");
                       (PStr "mamujoco",
                        PDict [(PStr "env_name", PStr "Other")]) ]))
           "mappo" _ (PDict []) _ eq_refl).
Defined.

(** X7. [--total-steps] and [--num-envs] override the loaded configuration
    only when given and different from 0: a non-zero [total_steps] becomes
    [num_env_steps], a non-zero [num_envs] becomes both [n_rollout_threads]
    and [n_eval_rollout_threads]; a flag that is absent or 0 leaves the
    loaded value (or the absence) of its keys as it is. *)
Theorem step_flags_override_when_nonzero (w : World) (algo : string)
        (args : Namespace) (cfg_env cfg_train : pyval) :
  multi_agent_args w algo = Ok (args, cfg_env, cfg_train) ->
  exists loaded,
    load_cfg_train w args algo = Ok loaded /\
    (forall n, total_steps args = Some n -> n <> 0%Z ->
               getitem cfg_train "num_env_steps" = Ok (PInt n)) /\
    (total_steps args = None \/ total_steps args = Some 0%Z ->
     getitem cfg_train "num_env_steps" = getitem loaded "num_env_steps") /\
    (forall n, num_envs args = Some n -> n <> 0%Z ->
               getitem cfg_train "n_rollout_threads" = Ok (PInt n) /\
               getitem cfg_train "n_eval_rollout_threads" = Ok (PInt n)) /\
    (num_envs args = None \/ num_envs args = Some 0%Z ->
     getitem cfg_train "n_rollout_threads" =
       getitem loaded "n_rollout_threads" /\
     getitem cfg_train "n_eval_rollout_threads" =
       getitem loaded "n_eval_rollout_threads").
Proof.
  intros R. apply multi_agent_args_train in R. destruct R as (c & L & O).
  apply overlay_cfg_train_spec in O.
  destruct O as (_ & _ & _ & _ & _ & _ & S & N & E).
  exists c. split; [assumption|]. unfold given in S, N, E. repeat split.
  - intros n Hn Hne. rewrite Hn in S. apply Z.eqb_neq in Hne.
    now rewrite Hne in S.
  - intros [Hn|Hn]; rewrite Hn in S; exact S.
  - rewrite H in N. apply Z.eqb_neq in H0. now rewrite H0 in N.
  - rewrite H in E. apply Z.eqb_neq in H0. now rewrite H0 in E.
  - destruct H as [Hn|Hn]; rewrite Hn in N; exact N.
  - destruct H as [Hn|Hn]; rewrite Hn in E; exact E.
Qed.

Lemma step_flags_override_when_nonzero_witness :
  exists args cfg_env cfg_train,
    multi_agent_args
      (mujoco_world (with_steps (Some 0%Z) (Some 16%Z) default_namespace)
         "2023-08-14-09-30-00" sample_cfg_train)
      "mappo" = Ok (args, cfg_env, cfg_train) /\
    getitem cfg_train "num_env_steps" = Ok (PInt 10000000) /\
    getitem cfg_train "n_rollout_threads" = Ok (PInt 16) /\
    getitem cfg_train "n_eval_rollout_threads" = Ok (PInt 16).
Proof.
  do 3 eexists. split; [vm_compute; reflexivity|].
  destruct (step_flags_override_when_nonzero
              (mujoco_world
                 (with_steps (Some 0%Z) (Some 16%Z) default_namespace)
                 "2023-08-14-09-30-00" sample_cfg_train)
              "mappo" _ (PDict []) _ eq_refl)
    as (loaded & L & _ & Hzero & Hset & _).
  vm_compute in L. injection L as <-.
  split; [apply Hzero; right; reflexivity|].
  apply (Hset 16%Z); [reflexivity | discriminate].
Defined.

(** *** What is kept of the training file *)

(** X8. For a task other than MujocoVelocity, every key of the loaded
    training file that is not one of the nine derived keys has in the
    returned [cfg_train] exactly the value (or the absence) it has in the
    file. *)
Theorem other_keys_as_loaded (w : World) (algo : string) (args : Namespace)
        (cfg_env cfg_train : pyval) (k : string) :
  multi_agent_args w algo = Ok (args, cfg_env, cfg_train) ->
  task args <> MujocoVelocity ->
  ~ In k derived_keys ->
  exists loaded,
    yaml_load w (cfg_train_file w algo) = Ok loaded /\
    getitem cfg_train k = getitem loaded k.
Proof.
  intros R Htask Hk.
  apply multi_agent_args_train in R. destruct R as (c & L & O).
  apply overlay_cfg_train_spec in O. destruct O as (Keep & _).
  unfold load_cfg_train in L. apply bind_ok in L.
  destruct L as (loaded & Hload & L).
  apply String.eqb_neq in Htask. rewrite Htask in L. injection L as <-.
  exists loaded. auto.
Qed.

Lemma other_keys_as_loaded_witness :
  exists args cfg_env cfg_train,
    multi_agent_args (shadow_world None [(PStr "randomize", PBool true)])
      "mappo" = Ok (args, cfg_env, cfg_train) /\
    getitem cfg_train "hidden_size" = getitem sample_cfg_train "hidden_size".
Proof.
  do 3 eexists. split; [vm_compute; reflexivity|].
  assert (Hk : ~ In "hidden_size" derived_keys).
  { simpl. intros H.
    repeat (destruct H as [H|H]; [discriminate H|]). exact H. }
  destruct (other_keys_as_loaded
              (shadow_world None [(PStr "randomize", PBool true)]) "mappo"
              _ _ _ "hidden_size" eq_refl
              ltac:(simpl; discriminate) Hk) as (loaded & Hl & G).
  vm_compute in Hl. injection Hl as <-. exact G.
Defined.

(** X9. For MujocoVelocity with a mapping under [mamujoco], every key that
    is not one of the nine derived keys has in the returned [cfg_train] the
    value the [mamujoco] mapping gives it (its last entry for the key) and,
    when that mapping has none, the value of the top level of the file: the
    sub-mapping overrides the top level, and nothing else is lost. *)
Theorem mamujoco_overrides_top_level (w : World) (algo : string)
        (args : Namespace) (cfg_env cfg_train : pyval) (d m : dict)
        (k : string) :
  multi_agent_args w algo = Ok (args, cfg_env, cfg_train) ->
  task args = MujocoVelocity ->
  yaml_load w (cfg_train_file w algo) = Ok (PDict d) ->
  dict_find (PStr "mamujoco") d = Some (PDict m) ->
  ~ In k derived_keys ->
  getitem cfg_train k =
    match dict_find (PStr k) (rev m) with
    | Some v => Ok v
    | None => getitem (PDict d) k
    end.
Proof.
  intros R Htask Hload Hm Hk.
  apply multi_agent_args_train in R. destruct R as (c & L & O).
  apply overlay_cfg_train_spec in O. destruct O as (Keep & _).
  rewrite (Keep k Hk).
  unfold load_cfg_train in L. rewrite Hload, Htask in L. simpl in L.
  rewrite Hm in L. simpl in L. injection L as <-.
  simpl. rewrite dict_find_merge.
  destruct (dict_find (PStr k) (rev m)); reflexivity.
Qed.

Lemma mamujoco_overrides_top_level_witness :
  exists args cfg_env cfg_train,
    multi_agent_args
      (mujoco_world default_namespace "2023-08-14-09-30-00" sample_cfg_train)
      "mappo" = Ok (args, cfg_env, cfg_train) /\
    getitem cfg_train "hidden_size" = Ok (PInt 256) /\
    getitem cfg_train "gamma" = Ok (PFloat 4607092346807469998).
Proof.
  do 3 eexists. split; [vm_compute; reflexivity|].
  split.
  - apply (mamujoco_overrides_top_level
             (mujoco_world default_namespace "2023-08-14-09-30-00"
                sample_cfg_train)
             "mappo" _ (PDict []) _ _ _ "hidden_size"
             eq_refl eq_refl eq_refl eq_refl).
    vm_compute. intros H.
    repeat (destruct H as [H|H]; [discriminate H|]). exact H.
  - apply (mamujoco_overrides_top_level
             (mujoco_world default_namespace "2023-08-14-09-30-00"
                sample_cfg_train)
             "mappo" _ (PDict []) _ _ _ "gamma"
             eq_refl eq_refl eq_refl eq_refl).
    vm_compute. intros H.
    repeat (destruct H as [H|H]; [discriminate H|]). exact H.
Defined.

(** *** Failures before the task is looked at *)

(** X10. Once the flags are parsed, a training file that cannot be loaded
    makes [multi_agent_args] raise the loader's exception, and one that
    loads as anything but a mapping (an empty file loads as [None]) makes
    it raise [AttributeError] for MujocoVelocity and [TypeError] for every
    other task, an unknown task included: the task name is only checked
    after the training configuration is built. *)
Theorem training_file_must_be_mapping (w : World) (algo : string)
        (args : Namespace) :
  parsed_args w = Ok args ->
  (forall e, yaml_load w (cfg_train_file w algo) = Raise e ->
             multi_agent_args w algo = Raise e) /\
  (forall v, yaml_load w (cfg_train_file w algo) = Ok v ->
             (forall d, v <> PDict d) ->
             multi_agent_args w algo =
               Raise (if String.eqb (task args) MujocoVelocity
                      then AttributeError else TypeError)).
Proof.
  intros Hargs. unfold multi_agent_args. rewrite Hargs. simpl.
  unfold build_cfg_train, load_cfg_train. split.
  - intros e ->. reflexivity.
  - intros v -> Hv. simpl.
    destruct (String.eqb (task args) MujocoVelocity);
      destruct v; try reflexivity; exfalso; eapply Hv; reflexivity.
Qed.

Lemma training_file_must_be_mapping_witness :
  multi_agent_args
    (mujoco_world default_namespace "2023-08-14-09-30-00" PNone) "mappo"
    = Raise AttributeError /\
  multi_agent_args
    (mujoco_world (with_task "Unknown" default_namespace)
       "2023-08-14-09-30-00" PNone) "mappo"
    = Raise TypeError.
Proof.
  split.
  - apply (proj2 (training_file_must_be_mapping
                    (mujoco_world default_namespace "2023-08-14-09-30-00"
                       PNone) "mappo" default_namespace eq_refl) PNone).
    + reflexivity.
    + discriminate.
  - apply (proj2 (training_file_must_be_mapping
                    (mujoco_world (with_task "Unknown" default_namespace)
                       "2023-08-14-09-30-00" PNone) "mappo"
                    (with_task "Unknown" default_namespace) eq_refl) PNone).
    + reflexivity.
    + discriminate.
Defined.

(** X11. For a ShadowHand task on a machine where [isaacgym] cannot be
    imported, [multi_agent_args] raises
    [Exception("Please install isaacgym to run ShadowHand tasks!")] before
    any file is read, whatever the files hold. *)
Theorem missing_simulator (w : World) (algo : string) :
  In (task (parse_args w)) shadow_tasks ->
  gymutil_parse_arguments w = None ->
  multi_agent_args w algo =
    Raise (Exception "Please install isaacgym to run ShadowHand tasks!").
Proof.
  intros Hshadow Hnone. apply in_list_spec in Hshadow.
  unfold multi_agent_args, parsed_args. now rewrite Hshadow, Hnone.
Qed.

Lemma missing_simulator_witness :
  multi_agent_args world_without_simulator "mappo" =
    Raise (Exception "Please install isaacgym to run ShadowHand tasks!").
Proof.
  apply (missing_simulator world_without_simulator "mappo").
  - simpl. auto.
  - reflexivity.
Defined.

(** *** MujocoVelocity *)

(** X12. For MujocoVelocity the simulator and the environment file play no
    part: two worlds with the same parsed flags, module directory, clock
    and training file give the same result, whatever [isaacgym], the
    working directory and the other files are; and a returned triple
    carries the parsed flags unchanged and the empty mapping as
    [cfg_env]. *)
Theorem mujoco_ignores_simulator (w1 w2 : World) (algo : string) :
  task (parse_args w1) = MujocoVelocity ->
  parse_args w1 = parse_args w2 ->
  module_dir w1 = module_dir w2 ->
  strftime w1 = strftime w2 ->
  yaml_load w1 (cfg_train_file w1 algo) =
    yaml_load w2 (cfg_train_file w1 algo) ->
  multi_agent_args w1 algo = multi_agent_args w2 algo /\
  (forall args cfg_env cfg_train,
      multi_agent_args w1 algo = Ok (args, cfg_env, cfg_train) ->
      args = parse_args w1 /\ cfg_env = PDict []).
Proof.
  intros Htask Hargs Hdir Hclock Hfile.
  assert (Htask2 : task (parse_args w2) = MujocoVelocity)
    by now rewrite <- Hargs.
  assert (Hpath : cfg_train_file w2 algo = cfg_train_file w1 algo)
    by (unfold cfg_train_file; now rewrite Hdir).
  unfold multi_agent_args.
  rewrite (parsed_args_mujoco w1 Htask), (parsed_args_mujoco w2 Htask2).
  simpl.
  rewrite (build_cfg_env_mujoco w1 _ Htask), (build_cfg_env_mujoco w2 _ Htask2).
  split.
  - unfold build_cfg_train, load_cfg_train, overlay_cfg_train.
    now rewrite Hpath, <- Hfile, <- Hargs, <- Hclock.
  - intros args cfg_env cfg_train R.
    destruct (build_cfg_train w1 (parse_args w1) algo); simpl in R;
      [|discriminate R].
    injection R as <- <- _. auto.
Qed.

Lemma mujoco_ignores_simulator_witness :
  multi_agent_args
    (mujoco_world default_namespace "2023-08-14-09-30-00" sample_cfg_train)
    "mappo" =
  multi_agent_args
    {| parse_args := default_namespace;
       gymutil_parse_arguments := Some (simulator_namespace None);
       module_dir := "/opt/safepo/utils";
       getcwd := "/elsewhere";
       yaml_load :=
         read_from
           [("/opt/safepo/multi_agent/marl_cfg/mappo/config.yaml",
             sample_cfg_train)];
       strftime := "2023-08-14-09-30-00" |}
    "mappo".
Proof.
  apply (mujoco_ignores_simulator
           (mujoco_world default_namespace "2023-08-14-09-30-00"
              sample_cfg_train)
           {| parse_args := default_namespace;
              gymutil_parse_arguments := Some (simulator_namespace None);
              module_dir := "/opt/safepo/utils";
              getcwd := "/elsewhere";
              yaml_load :=
                read_from
                  [("/opt/safepo/multi_agent/marl_cfg/mappo/config.yaml",
                    sample_cfg_train)];
              strftime := "2023-08-14-09-30-00" |}
           "mappo"); reflexivity.
Defined.

(** X13. Each name of [multi_agent_velocity_map] is the environment name
    [multi_agent_args] derives for MujocoVelocity from the agent
    configuration and the scenario the table gives for it. *)
Theorem velocity_map_names (name conf scen : string) (args : Namespace) :
  In (name, (conf, scen)) multi_agent_velocity_map ->
  task args = MujocoVelocity ->
  agent_conf args = conf -> scenario args = scen ->
  env_name_of args = name.
Proof.
  intros Hin Htask Hconf Hscen. unfold env_name_of.
  rewrite Htask, Hconf, Hscen. simpl. simpl in Hin.
  repeat (destruct Hin as [Hin|Hin];
          [injection Hin as <- <- <-; reflexivity|]).
  contradiction.
Qed.

Lemma velocity_map_names_witness :
  env_name_of default_namespace = "Safety2x1SwimmerVelocity-v0".
Proof.
  apply (velocity_map_names "Safety2x1SwimmerVelocity-v0" "2x1" "Swimmer"
           default_namespace).
  - simpl. tauto.
  - reflexivity.
  - reflexivity.
  - reflexivity.
Defined.

(** *** The ShadowHand tasks *)

(** X14. For a ShadowHand task the flags returned are the ones the
    simulator's parser produced, with [device] replaced by the simulator's
    device type when the GPU pipeline is on and by ["cpu"] when it is off;
    the [device] entry of [cfg_train] is built from that device: the
    [--device] flag of the first parse is not used. *)
Theorem shadow_device_from_simulator (w : World) (algo : string)
        (simulated args : Namespace) (cfg_env cfg_train : pyval) :
  In (task (parse_args w)) shadow_tasks ->
  gymutil_parse_arguments w = Some simulated ->
  multi_agent_args w algo = Ok (args, cfg_env, cfg_train) ->
  exists gpu,
    use_gpu_pipeline simulated = Some gpu /\
    (if gpu : bool then sim_device_type simulated = Some (device args)
     else device args = "cpu") /\
    args = set_device (device args) simulated /\
    getitem cfg_train "device" =
      Ok (PStr (device args ++ ":" ++ str (device_id simulated))).
Proof.
  intros Hshadow Hsim R.
  destruct (multi_agent_args_train w algo args cfg_env cfg_train R)
    as (c & _ & O).
  apply overlay_cfg_train_spec in O.
  destruct O as (_ & _ & _ & _ & Hdev & _).
  apply multi_agent_args_ok in R. destruct R as (P & _ & _).
  apply in_list_spec in Hshadow.
  unfold parsed_args in P. rewrite Hshadow, Hsim in P.
  destruct (use_gpu_pipeline simulated) as [[|]|]; simpl in P;
    [| |discriminate P].
  - destruct (sim_device_type simulated) as [d|]; simpl in P;
      [|discriminate P].
    injection P as <-. exists true. simpl. auto.
  - injection P as <-. exists false. simpl. auto.
Qed.

Lemma shadow_device_from_simulator_witness :
  exists args cfg_env cfg_train,
    multi_agent_args (shadow_world None [(PStr "randomize", PBool true)])
      "mappo" = Ok (args, cfg_env, cfg_train) /\
    device args = "cuda" /\
    getitem cfg_train "device" = Ok (PStr "cuda:0").
Proof.
  do 3 eexists. split; [vm_compute; reflexivity|].
  destruct (shadow_device_from_simulator
              (shadow_world None [(PStr "randomize", PBool true)]) "mappo"
              (simulator_namespace None) _ _ _
              ltac:(simpl; auto) eq_refl eq_refl)
    as (gpu & _ & _ & _ & Hdev).
  split; [reflexivity | exact Hdev].
Defined.

(** X15. For a ShadowHand task the returned [cfg_env] holds the task name
    under [name], whatever the environment file held there; and when the
    file has no [task] entry, the returned one is exactly the mapping with
    [randomize] set to [False]. *)
Theorem shadow_cfg_env_name (w : World) (algo : string) (args : Namespace)
        (cfg_env cfg_train : pyval) :
  multi_agent_args w algo = Ok (args, cfg_env, cfg_train) ->
  In (task args) shadow_tasks ->
  getitem cfg_env "name" = Ok (PStr (task args)) /\
  (forall name d,
      lookup (task args) config_map = Ok name ->
      yaml_load w (cfg_env_file w name) = Ok (PDict d) ->
      dict_find (PStr "task") d = None ->
      getitem cfg_env "task" = Ok (PDict [(PStr "randomize", PBool false)])).
Proof.
  intros R Hshadow.
  apply multi_agent_args_ok in R. destruct R as (_ & _ & E).
  rewrite (build_cfg_env_shadow w args Hshadow) in E.
  apply load_cfg_env_ok in E.
  destruct E as (name & loaded & named & Hname & Hload & Hnamed & Hcases).
  assert (Hn : getitem named "name" = Ok (PStr (task args)))
    by (eapply getitem_setitem_same; eassumption).
  assert (Ht : getitem named "task" = getitem loaded "task").
  { eapply getitem_setitem_other; [|eassumption]. discriminate. }
  split.
  - destruct Hcases as [[_ Hset] | (sub & value & sub' & _ & _ & Hset & _)];
      rewrite <- Hn; (eapply getitem_setitem_other; [|eassumption]);
      discriminate.
  - intros name' d Hname' Hload' Hnone.
    rewrite Hname in Hname'. injection Hname' as <-.
    rewrite Hload in Hload'. injection Hload' as ->.
    simpl in Ht. rewrite Hnone in Ht.
    destruct Hcases as [[_ Hset] | (sub & value & sub' & Hsub & _)].
    + eapply getitem_setitem_same; eassumption.
    + rewrite Hsub in Ht. discriminate Ht.
Qed.

Lemma shadow_cfg_env_name_witness :
  exists args cfg_env cfg_train,
    multi_agent_args
      {| parse_args := with_task ShadowHandOver default_namespace;
         gymutil_parse_arguments := Some (simulator_namespace None);
         module_dir := "/opt/safepo/utils";
         getcwd := "/work";
         yaml_load :=
           read_from
             [("/opt/safepo/multi_agent/marl_cfg/mappo/config.yaml",
               sample_cfg_train);
              ("/work/marl_cfg/shadow_hand_over.yaml",
               PDict [(PStr "name", PStr "Old")])];
         strftime := "2023-08-14-09-30-00" |}
      "mappo" = Ok (args, cfg_env, cfg_train) /\
    getitem cfg_env "name" = Ok (PStr "ShadowHandOver") /\
    getitem cfg_env "task" = Ok (PDict [(PStr "randomize", PBool false)]).
Proof.
  do 3 eexists. split; [vm_compute; reflexivity|].
  destruct (shadow_cfg_env_name
              {| parse_args := with_task ShadowHandOver default_namespace;
                 gymutil_parse_arguments := Some (simulator_namespace None);
                 module_dir := "/opt/safepo/utils";
                 getcwd := "/work";
                 yaml_load :=
                   read_from
                     [("/opt/safepo/multi_agent/marl_cfg/mappo/config.yaml",
                       sample_cfg_train);
                      ("/work/marl_cfg/shadow_hand_over.yaml",
                       PDict [(PStr "name", PStr "Old")])];
                 strftime := "2023-08-14-09-30-00" |}
              "mappo" _ _ _ eq_refl ltac:(simpl; auto)) as [Hn Ht].
  split; [exact Hn|].
  apply (Ht "shadow_hand_over" [(PStr "name", PStr "Old")]); reflexivity.
Defined.

(** X16. For a ShadowHand task whose environment file has a [task] entry
    that is not a mapping (null, a number, a string, a sequence),
    [multi_agent_args] never returns; it raises [TypeError] when the
    training configuration can be built and the parsed flags carry a
    [randomize] attribute. *)
Theorem task_entry_must_be_mapping (w : World) (algo : string)
        (args : Namespace) (name : string) (d : dict) (v : pyval) :
  parsed_args w = Ok args ->
  In (task args) shadow_tasks ->
  lookup (task args) config_map = Ok name ->
  yaml_load w (cfg_env_file w name) = Ok (PDict d) ->
  dict_find (PStr "task") d = Some v ->
  (forall entries, v <> PDict entries) ->
  ~ returns (multi_agent_args w algo) /\
  (returns (build_cfg_train w args algo) -> randomize args <> None ->
   multi_agent_args w algo = Raise TypeError).
Proof.
  intros Hargs Hshadow Hname Hload Htask Hv.
  assert (E : build_cfg_env w args = Raise TypeError \/
              (randomize args = None /\
               build_cfg_env w args = Raise AttributeError)).
  { rewrite (build_cfg_env_shadow w args Hshadow).
    unfold load_cfg_env. rewrite Hname. simpl. rewrite Hload. simpl.
    rewrite dict_find_set_other by discriminate. rewrite Htask. simpl.
    destruct v as [| | | |s|items|entries]; simpl; auto.
    - destruct (substring_of "randomize" s); simpl; auto.
      destruct (randomize args); simpl; auto.
    - destruct (existsb (key_eqb (PStr "randomize")) items); simpl; auto.
      destruct (randomize args); simpl; auto.
    - exfalso. eapply Hv. reflexivity. }
  unfold multi_agent_args. rewrite Hargs. simpl. split.
  - intros [r Hr].
    destruct (build_cfg_train w args algo); simpl in Hr; [|discriminate Hr].
    destruct E as [E|[_ E]]; rewrite E in Hr; discriminate Hr.
  - intros [t ->] Hr. simpl.
    destruct E as [E|[Hnone _]]; [now rewrite E | contradiction].
Qed.

Lemma task_entry_must_be_mapping_witness :
  ~ returns
      (multi_agent_args
         {| parse_args := with_task ShadowHandOver default_namespace;
            gymutil_parse_arguments :=
              Some (simulator_namespace (Some (PBool true)));
            module_dir := "/opt/safepo/utils";
            getcwd := "/work";
            yaml_load :=
              read_from
                [("/opt/safepo/multi_agent/marl_cfg/mappo/config.yaml",
                  sample_cfg_train);
                 ("/work/marl_cfg/shadow_hand_over.yaml",
                  PDict [(PStr "task", PStr "ShadowHandOver")])];
            strftime := "2023-08-14-09-30-00" |}
         "mappo").
Proof.
  apply (task_entry_must_be_mapping
           {| parse_args := with_task ShadowHandOver default_namespace;
              gymutil_parse_arguments :=
                Some (simulator_namespace (Some (PBool true)));
              module_dir := "/opt/safepo/utils";
              getcwd := "/work";
              yaml_load :=
                read_from
                  [("/opt/safepo/multi_agent/marl_cfg/mappo/config.yaml",
                    sample_cfg_train);
                   ("/work/marl_cfg/shadow_hand_over.yaml",
                    PDict [(PStr "task", PStr "ShadowHandOver")])];
              strftime := "2023-08-14-09-30-00" |}
           "mappo"
           (set_device "cuda" (simulator_namespace (Some (PBool true))))
           "shadow_hand_over"
           [(PStr "task", PStr "ShadowHandOver")]
           (PStr "ShadowHandOver")).
  - reflexivity.
  - simpl. auto.
  - reflexivity.
  - reflexivity.
  - reflexivity.
  - discriminate.
Defined.

(** X23. For the two ShadowHand tasks the flags of the first parse are
    discarded: two worlds that differ only in what [parser.parse_args()]
    returned, both naming a ShadowHand task, give the same result, built
    from the simulator's parse alone. *)
Theorem first_parse_discarded (w1 w2 : World) (algo : string) :
  In (task (parse_args w1)) shadow_tasks ->
  In (task (parse_args w2)) shadow_tasks ->
  gymutil_parse_arguments w1 = gymutil_parse_arguments w2 ->
  module_dir w1 = module_dir w2 ->
  getcwd w1 = getcwd w2 ->
  yaml_load w1 = yaml_load w2 ->
  strftime w1 = strftime w2 ->
  multi_agent_args w1 algo = multi_agent_args w2 algo.
Proof.
  intros H1 H2 Hgym Hdir Hcwd Hload Hclock.
  apply in_list_spec in H1, H2.
  unfold multi_agent_args, parsed_args. rewrite H1, H2, <- Hgym.
  unfold build_cfg_train, load_cfg_train, cfg_train_file, overlay_cfg_train,
    build_cfg_env, load_cfg_env, cfg_env_file.
  now rewrite Hdir, Hcwd, Hload, Hclock.
Qed.

Lemma first_parse_discarded_witness :
  multi_agent_args (shadow_world None [(PStr "randomize", PBool true)])
    "mappo" =
  multi_agent_args
    {| parse_args :=
         with_seed 123 (with_task ShadowHandCatchUnderarm default_namespace);
       gymutil_parse_arguments := Some (simulator_namespace None);
       module_dir := "/opt/safepo/utils";
       getcwd := "/work";
       yaml_load :=
         read_from
           (sample_files sample_cfg_train [(PStr "randomize", PBool true)]);
       strftime := "2023-08-14-09-30-00" |}
    "mappo".
Proof.
  apply (first_parse_discarded
           (shadow_world None [(PStr "randomize", PBool true)])
           {| parse_args :=
                with_seed 123
                  (with_task ShadowHandCatchUnderarm default_namespace);
              gymutil_parse_arguments := Some (simulator_namespace None);
              module_dir := "/opt/safepo/utils";
              getcwd := "/work";
              yaml_load :=
                read_from
                  (sample_files sample_cfg_train
                     [(PStr "randomize", PBool true)]);
              strftime := "2023-08-14-09-30-00" |}
           "mappo"); try reflexivity; simpl; auto.
Defined.

(** X24. For a ShadowHand task whose environment file has a task mapping
    without a [randomize] key, the key can only be filled in from a
    [randomize] attribute of the parsed flags: when the flags carry none
    and the training configuration can be built, [multi_agent_args] raises
    [AttributeError] and returns nothing. *)
Theorem randomize_attribute_needed (w : World) (algo : string)
        (args : Namespace) (name : string) (d entries : dict) :
  parsed_args w = Ok args ->
  In (task args) shadow_tasks ->
  returns (build_cfg_train w args algo) ->
  lookup (task args) config_map = Ok name ->
  yaml_load w (cfg_env_file w name) = Ok (PDict d) ->
  dict_find (PStr "task") d = Some (PDict entries) ->
  dict_find (PStr "randomize") entries = None ->
  randomize args = None ->
  multi_agent_args w algo = Raise AttributeError.
Proof.
  intros Hargs Hshadow [t Ht] Hname Hload Htask Hflag Hattr.
  unfold multi_agent_args. rewrite Hargs. simpl. rewrite Ht. simpl.
  rewrite (build_cfg_env_shadow w args Hshadow).
  unfold load_cfg_env. rewrite Hname. simpl. rewrite Hload. simpl.
  rewrite dict_find_set_other by discriminate. rewrite Htask. simpl.
  rewrite Hflag. simpl. rewrite Hattr. reflexivity.
Qed.

Lemma randomize_attribute_needed_witness :
  multi_agent_args
    (shadow_world None [(PStr "observationType", PStr "full")]) "mappo"
    = Raise AttributeError.
Proof.
  apply (randomize_attribute_needed
           (shadow_world None [(PStr "observationType", PStr "full")])
           "mappo" (set_device "cuda" (simulator_namespace None))
           "shadow_hand_over"
           [ (PStr "env", PDict [(PStr "numEnvs", PInt 2048)]);
             (PStr "task", PDict [(PStr "observationType", PStr "full")]) ]
           [(PStr "observationType", PStr "full")]).
  - reflexivity.
  - simpl. auto.
  - eexists. vm_compute. reflexivity.
  - reflexivity.
  - reflexivity.
  - reflexivity.
  - reflexivity.
  - reflexivity.
Defined.

(** *** Where the training file is looked for *)

Lemma replace_utils_last (head : string) :
  substring_of "utils" (head ++ "util") = false ->
  replace "utils" "multi_agent" (head ++ "utils") = head ++ "multi_agent".
Proof.
  unfold replace. induction head as [|x head IH]; intros Hfree.
  - reflexivity.
  - simpl in Hfree. apply orb_false_iff in Hfree.
    destruct Hfree as [Hhere Hrest].
    change (String x head ++ "utils") with (String x (head ++ "utils")).
    rewrite replace_from_cons.
    replace (String x (head ++ "utils"))
      with (String x (head ++ "util") ++ "s") at 1
      by (simpl; now rewrite append_assoc).
    rewrite prefix_append by (simpl; rewrite length_append; simpl; lia).
    simpl in Hhere. simpl String.prefix. rewrite Hhere.
    rewrite (IH Hrest). reflexivity.
Qed.

(** X17. When the directory of the module ends in [utils] and [utils]
    occurs nowhere else in it, the training configuration of an algorithm
    is read from the sibling directory [multi_agent]:
    [<parent>multi_agent/marl_cfg/<algo>/config.yaml]. *)
Theorem training_file_location (w : World) (algo parent : string) :
  module_dir w = parent ++ "utils" ->
  substring_of "utils" (parent ++ "util") = false ->
  cfg_train_file w algo =
    parent ++ "multi_agent" ++ "/" ++ "marl_cfg/" ++ algo ++ "/config.yaml".
Proof.
  intros Hdir Hfree. unfold cfg_train_file.
  rewrite Hdir, (replace_utils_last parent Hfree).
  unfold os_path_join.
  change (String.prefix "/" ("marl_cfg/" ++ algo ++ "/config.yaml"))
    with false. cbv iota.
  rewrite ends_with_slash_append by discriminate.
  assert (E : String.eqb (parent ++ "multi_agent") "" = false).
  { destruct parent; reflexivity. }
  rewrite E. change (ends_with_slash "multi_agent") with false.
  cbv beta iota delta [orb].
  now rewrite append_assoc.
Qed.

Lemma training_file_location_witness :
  cfg_train_file
    (mujoco_world default_namespace "2023-08-14-09-30-00" sample_cfg_train)
    "mappo" = "/opt/safepo/multi_agent/marl_cfg/mappo/config.yaml".
Proof.
  apply (training_file_location
           (mujoco_world default_namespace "2023-08-14-09-30-00"
              sample_cfg_train) "mappo" "/opt/safepo/").
  - reflexivity.
  - reflexivity.
Defined.

End ConfigExtra.

(* ================================================================== *)
(** ** Properties of the simulator parameters *)
(* ================================================================== *)

Module SimSpec.
Import Py PyFacts Sim.

Lemma set_gpu_num_threads (args : SimArgs) (p : SimParams) :
  num_threads (physx (set_gpu args p)) = num_threads (physx p).
Proof. reflexivity. Qed.

(** X18. With the PhysX engine and a positive [--num_threads], the
    parameters [parse_sim_params] returns have that thread count, whatever
    the [sim] section of the configuration asks for and whatever else the
    simulator's configuration parser changes: the command line is applied
    last. *)
Theorem command_line_threads_win (gym : Gym) (args : SimArgs)
        (cfg cfg_train : pyval) (sim_params : SimParams) :
  arg_physics_engine args = SIM_PHYSX ->
  (0 < arg_num_threads args)%Z ->
  snd (parse_sim_params (Some gym) args cfg cfg_train) = Ok sim_params ->
  num_threads (physx sim_params) = arg_num_threads args.
Proof.
  intros Hengine Hpos. unfold parse_sim_params. rewrite Hengine. simpl.
  destruct (Z.gtb_spec (arg_num_threads args) 0) as [_|Hle]; [|lia].
  intros H. apply bind_ok in H. destruct H as (has_sim & _ & H).
  apply bind_ok in H. destruct H as (configured & _ & H).
  injection H as <-. reflexivity.
Qed.

Lemma command_line_threads_win_witness :
  exists sim_params,
    snd (parse_sim_params (Some sample_gym) sample_sim_args
           (PDict [(PStr "sim", PDict [(PStr "num_threads", PInt 16)])])
           PNone) = Ok sim_params /\
    num_threads (physx sim_params) = 8%Z.
Proof.
  eexists. split; [vm_compute; reflexivity|].
  apply (command_line_threads_win sample_gym sample_sim_args
           (PDict [(PStr "sim", PDict [(PStr "num_threads", PInt 16)])])
           PNone _ eq_refl eq_refl eq_refl).
Defined.

(** X19. When the configuration is a mapping without a [sim] entry, the
    simulator's configuration parser is not consulted and, for the PhysX
    engine, [parse_sim_params] returns the fresh parameters with the time
    step 1/60, the client threads of [--slices], solver type 1, 4 position
    and 0 velocity iterations, the GPU switches and the subscenes of the
    flags, 8 * 1024 * 1024 contact pairs, and [--num_threads] threads when
    that flag is positive, 4 otherwise; the Flex parameters and every
    other attribute are the fresh ones, and nothing is printed. *)
Theorem physx_defaults_without_sim_section (gym : Gym) (args : SimArgs)
        (d : dict) (cfg_train : pyval) :
  arg_physics_engine args = SIM_PHYSX ->
  dict_find (PStr "sim") d = None ->
  parse_sim_params (Some gym) args (PDict d) cfg_train =
    ([],
     Ok {| dt := one_sixtieth;
           num_client_threads := arg_slices args;
           flex := flex (new_sim_params gym);
           physx :=
             {| solver_type := 1;
                num_position_iterations := 4;
                num_velocity_iterations := 0;
                num_threads :=
                  if (arg_num_threads args >? 0)%Z
                  then arg_num_threads args else 4;
                use_gpu := arg_use_gpu args;
                num_subscenes := arg_subscenes args;
                max_gpu_contact_pairs := 8388608;
                physx_other := physx_other (physx (new_sim_params gym)) |};
           use_gpu_pipeline := arg_use_gpu_pipeline args;
           sim_other := sim_other (new_sim_params gym) |}).
Proof.
  intros Hengine Hsim. unfold parse_sim_params. rewrite Hengine. simpl.
  rewrite Hsim. simpl.
  destruct (arg_num_threads args >? 0)%Z; reflexivity.
Qed.

Lemma physx_defaults_without_sim_section_witness :
  snd (parse_sim_params (Some sample_gym)
         (with_engine SIM_PHYSX "cuda" 0 sample_sim_args)
         (PDict [(PStr "env", PDict [])]) PNone) =
  Ok {| dt := one_sixtieth;
        num_client_threads := 2;
        flex := flex sample_params;
        physx :=
          {| solver_type := 1;
             num_position_iterations := 4;
             num_velocity_iterations := 0;
             num_threads := 4;
             use_gpu := true;
             num_subscenes := 0;
             max_gpu_contact_pairs := 8388608;
             physx_other := PNone |};
        use_gpu_pipeline := true;
        sim_other := PNone |}.
Proof.
  rewrite (physx_defaults_without_sim_section sample_gym
             (with_engine SIM_PHYSX "cuda" 0 sample_sim_args)
             [(PStr "env", PDict [])] PNone eq_refl eq_refl).
  reflexivity.
Defined.

Lemma printed_lines (gym : Gym) (args : SimArgs) (cfg cfg_train : pyval) :
  fst (parse_sim_params (Some gym) args cfg cfg_train) =
    (if (is_flex (arg_physics_engine args)
         && negb (String.eqb (arg_device args) "cpu"))%bool
     then [flex_warning] else []).
Proof.
  unfold parse_sim_params.
  destruct (arg_physics_engine args); reflexivity.
Qed.

(** X20. With [isaacgym] installed, [parse_sim_params] prints the Flex
    warning, once, exactly when the engine is Flex and the device is not
    ["cpu"], and prints nothing otherwise; and for an engine other than
    PhysX the [--num_threads] flag is never applied: without a [sim] entry
    the thread count stays the one of the fresh parameters. *)
Theorem flex_warning_and_threads (gym : Gym) (args : SimArgs)
        (cfg cfg_train : pyval) :
  fst (parse_sim_params (Some gym) args cfg cfg_train) =
    (if (is_flex (arg_physics_engine args)
         && negb (String.eqb (arg_device args) "cpu"))%bool
     then [flex_warning] else []) /\
  (forall d sim_params,
      arg_physics_engine args <> SIM_PHYSX ->
      cfg = PDict d -> dict_find (PStr "sim") d = None ->
      snd (parse_sim_params (Some gym) args cfg cfg_train) = Ok sim_params ->
      num_threads (physx sim_params) =
        num_threads (physx (new_sim_params gym))).
Proof.
  split; [apply printed_lines|]. unfold parse_sim_params.
  - intros d sim_params Hengine -> Hsim.
    destruct (arg_physics_engine args); [congruence| |];
      simpl; rewrite Hsim; simpl; intros [= <-]; reflexivity.
Qed.

(** X21. After [multi_agent_args] for a ShadowHand task with the GPU
    pipeline off, the device of the returned flags is ["cpu"], so
    [parse_sim_params] called with that device never prints the Flex
    warning, whichever engine is selected. *)
Theorem no_flex_warning_on_cpu_pipeline (w : Config.World) (algo : string)
        (simulated args : Config.Namespace) (cfg_env cfg_train : pyval)
        (gym : Gym) (sim_args : SimArgs) :
  In (Config.task (Config.parse_args w)) Config.shadow_tasks ->
  Config.gymutil_parse_arguments w = Some simulated ->
  Config.use_gpu_pipeline simulated = Some false ->
  Config.multi_agent_args w algo = Ok (args, cfg_env, cfg_train) ->
  arg_device sim_args = Config.device args ->
  fst (parse_sim_params (Some gym) sim_args cfg_env cfg_train) = [].
Proof.
  intros Hshadow Hsim Hgpu R Hdev.
  apply ConfigSpec.multi_agent_args_ok in R. destruct R as (P & _ & _).
  apply ConfigSpec.in_list_spec in Hshadow.
  unfold Config.parsed_args in P. rewrite Hshadow, Hsim, Hgpu in P.
  simpl in P. injection P as <-. simpl in Hdev.
  rewrite printed_lines, Hdev. simpl. now rewrite andb_false_r.
Qed.

Lemma no_flex_warning_on_cpu_pipeline_witness :
  exists args cfg_env cfg_train,
    Config.multi_agent_args Config.cpu_pipeline_world "mappo" =
      Ok (args, cfg_env, cfg_train) /\
    Config.device args = "cpu" /\
    fst (parse_sim_params (Some sample_gym)
           (with_engine SIM_FLEX "cpu" 0 sample_sim_args) cfg_env cfg_train)
    = [].
Proof.
  do 3 eexists. split; [vm_compute; reflexivity|].
  split; [reflexivity|].
  apply (no_flex_warning_on_cpu_pipeline Config.cpu_pipeline_world "mappo"
           Config.cpu_pipeline_namespace _ _ _ sample_gym
           (with_engine SIM_FLEX "cpu" 0 sample_sim_args)
           ltac:(simpl; auto) eq_refl eq_refl eq_refl eq_refl).
Defined.

End SimSpec.
